(** * mmdetection-mini: the evaluation hook and the dataset base class

    A shallow embedding of [detecter/evaluation/evalhook.py] and
    [detecter/dataset/custom.py].  Python integers are [Z], dictionaries
    whose iteration order matters are association lists in insertion order,
    the list of data-info records is a [list] read and updated by index, and
    code that raises or mutates is written in explicit state-passing style:
    a computation takes the world it runs in and returns an outcome together
    with the world it leaves behind. *)

From Stdlib Require Import ZArith Lia Bool Ascii String SpecFloat Sorted.
From stdpp Require Import base option list strings.

Local Open Scope Z_scope.

Set Warnings "-register-all".

(** ** Python values, exceptions and outcomes *)

Module Py.

(** The objects an evaluation callback can hand back.  [PyObject] stands for
    any object that is neither [None], an [int], a [float] nor a [dict]
    (a [str], a numpy scalar, a tensor, ...); it is described by the three
    observations this code makes of an object: [str(o)], [bool(o)] and
    the outcome of [float(o)] ([None] when [float] raises). *)
Inductive pyobj :=
| PyNone
| PyInt (z : Z)
| PyFloat (f : spec_float)
| PyDict (items : list (string * pyobj))
| PyObject (repr : string) (truth : bool) (as_float : option spec_float).

Definition dict := list (string * pyobj).

(** An argument of [str.format] or of an f-string. *)
Inductive fmt_arg :=
| ArgStr (s : string)
| ArgObj (v : pyobj)
| ArgType (type_name : string).

(** A formatted message: the template and the values substituted for its
    [{}] fields, in order. *)
Record message := Msg { template : string; args : list fmt_arg }.

Inductive exn :=
| NameError (name : string)
| AttributeError (attr : string)
| TypeError (what : string)
| IndexError
| AssertionError (msg : message)
| ValueError (msg : message)
| UserError (tag : string).

Inductive res (A : Type) :=
| Ok (a : A)
| Raise (e : exn).
Arguments Ok {A} a.
Arguments Raise {A} e.

Definition is_ok {A} (r : res A) : bool :=
  match r with Ok _ => true | Raise _ => false end.

(** [bool(o)]. *)
Definition truthy (o : pyobj) : bool :=
  match o with
  | PyNone => false
  | PyInt z => negb (Z.eqb z 0)
  | PyFloat (S754_zero _) => false
  | PyFloat _ => true
  | PyDict items => match items with [] => false | _ :: _ => true end
  | PyObject _ t _ => t
  end.

(** [isinstance(o, dict)]. *)
Definition isinstance_dict (o : pyobj) : bool :=
  match o with PyDict _ => true | _ => false end.

(** [float(int)]: round to the nearest binary64, ties to even;
    [OverflowError] when the integer is out of range. *)
Definition float_of_int (z : Z) : option spec_float :=
  match binary_normalize 53 1024 z 0 false with
  | S754_infinity _ => None
  | f => Some f
  end.

(** [float(o)]; [None] when the call raises. *)
Definition py_float (o : pyobj) : option pyobj :=
  match o with
  | PyNone => None
  | PyInt z => PyFloat <$> float_of_int z
  | PyFloat f => Some (PyFloat f)
  | PyDict _ => None
  | PyObject _ _ r => PyFloat <$> r
  end.

(** [d[k] = v] on an insertion-ordered dictionary. *)
Fixpoint dict_set (d : dict) (k : string) (v : pyobj) : dict :=
  match d with
  | [] => [(k, v)]
  | (k', v') :: d' =>
      if String.eqb k' k then (k', v) :: d' else (k', v') :: dict_set d' k v
  end.

Definition dict_keys (d : dict) : list string := fst <$> d.

(** [template.format] applied to the texts of its fields, for a template
    whose replacement fields are all written [{}] and that holds no other
    brace, as the templates of this code are: the fields are filled from
    left to right; [None] when a field finds no value ([IndexError]). *)
Fixpoint format (template : string) (fields : list string) : option string :=
  match template with
  | EmptyString => Some EmptyString
  | String c rest =>
      match rest with
      | String c' rest' =>
          if Ascii.eqb c "{" && Ascii.eqb c' "}" then
            match fields with
            | f :: fields' => String.append f <$> format rest' fields'
            | [] => None
            end
          else String c <$> format rest fields
      | EmptyString => Some (String c EmptyString)
      end
  end.

(** The text a message is formatted to, [str_of] being [str] on objects. *)
Definition field_text (str_of : pyobj -> string) (a : fmt_arg) : string :=
  match a with
  | ArgStr s => s
  | ArgObj v => str_of v
  | ArgType type_name => "<class '" +:+ type_name +:+ "'>"
  end.

Definition render (str_of : pyobj -> string) (m : message) : option string :=
  format (template m) (field_text str_of <$> args m).

End Py.
Export Py.

(** ** detecter/evaluation/evalhook.py *)

Module EvalHook.

(** What the hook reads of the enclosing runner. *)
Record Runner := {
  iter : Z;
  max_iter : Z;
  epoch : Z;
  max_epoch : Z
}.

(** One call of [runner.storage.put_scalars]: the keyword arguments that
    carry the scalars, and the [smoothing_hint] passed with them. *)
Record put_record := { put_kwargs : dict; put_smoothing_hint : bool }.

(** What an evaluation pass acts on: how often the callback has been
    invoked, the calls received by the metrics store, and how often the
    barrier [dist_comm.synchronize()] has been entered. *)
Record World := {
  calls : nat;
  storage : list put_record;
  barriers : nat
}.

Definition world0 : World := {| calls := 0; storage := []; barriers := 0 |}.

(** How often the callback was invoked on the way from [w] to [w']. *)
Definition invocations (w w' : World) : nat := (calls w' - calls w)%nat.

(** A computation that acts on the world and returns or raises. *)
Definition M (A : Type) : Type := World -> res A * World.

Definition ret {A} (a : A) : M A := fun w => (Ok a, w).
Definition raise {A} (e : exn) : M A := fun w => (Raise e, w).
Definition bind {A B} (m : M A) (k : A -> M B) : M B :=
  fun w => match m w with
           | (Ok a, w') => k a w'
           | (Raise e, w') => (Raise e, w')
           end.

Notation "x <- m ;; k" := (bind m (fun x => k))
  (at level 100, m at next level, right associativity).
Notation "m ;;; k" := (bind m (fun _ => k))
  (at level 100, right associativity).

(** The evaluation callback: a zero-argument callable.  Its argument here is
    the number of times it has been invoked before, so that successive
    invocations may return different results or raise. *)
Definition callback := nat -> res pyobj.

(** Attributes of the hook object that [EvalHook] reads but never assigns:
    they can only come from cvcore's [Hook] base class or from the runner
    the hook is registered with.  A flag tells whether the attribute is
    bound on the instance; when it is, it refers to the enclosing runner. *)
Record Hook := {
  has_runner : bool;
  has_trainer : bool
}.

Record EvalHook := {
  base : Hook;
  by_epoch : bool;
  _period : Z;
  _func : option callback
}.

(** [EvalHook.__init__] *)
Definition __init__ (hook : Hook) (eval_function : callback)
    (by_epoch : bool) (eval_period : Z) : EvalHook :=
  {| base := hook;
     by_epoch := by_epoch;
     _period := eval_period;
     _func := Some eval_function |}.

(** [self.runner] and [self.trainer]. *)
Definition self_runner (self : EvalHook) (enclosing : Runner) : M Runner :=
  if has_runner (base self) then ret enclosing
  else raise (AttributeError "runner").

Definition self_trainer (self : EvalHook) (enclosing : Runner) : M Runner :=
  if has_trainer (base self) then ret enclosing
  else raise (AttributeError "trainer").

(** [self._func()] *)
Definition call_func (self : EvalHook) : M pyobj :=
  match _func self with
  | None => raise (AttributeError "_func")
  | Some f => fun w =>
      (f (calls w),
       {| calls := S (calls w); storage := storage w; barriers := barriers w |})
  end.

(** [runner.storage.put_scalars] called with the dictionary [kwargs]
    unpacked into keyword arguments and [smoothing_hint=hint]: a key of
    [kwargs] that repeats the explicit keyword is a [TypeError] at the call;
    otherwise the store receives the call. *)
Definition put_scalars (kwargs : dict) (hint : bool) : M unit :=
  if bool_decide ("smoothing_hint" ∈ dict_keys kwargs)
  then raise (TypeError "got multiple values for keyword argument 'smoothing_hint'")
  else fun w =>
      (Ok tt,
       {| calls := calls w;
          storage := storage w ++ [{| put_kwargs := kwargs; put_smoothing_hint := hint |}];
          barriers := barriers w |}).

(** [dist_comm.synchronize()] *)
Definition synchronize : M unit :=
  fun w => (Ok tt,
            {| calls := calls w; storage := storage w; barriers := S (barriers w) |}).

Definition must_be_dict (results : pyobj) : message :=
  Msg "Eval function must return a dict. Got {} instead." [ArgObj results].

Definition must_be_float (k : string) (v : pyobj) : message :=
  Msg ("[EvalHook] eval_function should return a nested dict of float. "
       +:+ "Got '{}: {}' instead.") [ArgStr k; ArgObj v].

(** The loop [for k, v in flattened_results.items(): try: v = float(v) ...]:
    the result of [float] is bound to the loop variable only, so the loop
    checks and leaves [flattened_results] as it is. *)
Fixpoint check_floats (items : dict) : M unit :=
  match items with
  | [] => ret tt
  | (k, v) :: rest =>
      match py_float v with
      | Some _ => check_floats rest
      | None => raise (ValueError (must_be_float k v))
      end
  end.

Section DoEval.

(** [flatten_results_dict] is imported from [..utils.misc], which is not
    part of the fragment: whatever it computes, it maps the callback's
    dictionary to the flattened one. *)
Variable flatten_results_dict : dict -> dict.

(** [EvalHook._do_eval] *)
Definition _do_eval (self : EvalHook) (runner : Runner) : M unit :=
  results <- call_func self ;;
  (if truthy results then
     match results with
     | PyDict d =>
         let flattened_results := flatten_results_dict d in
         check_floats flattened_results ;;;
         put_scalars flattened_results false
     | _ => raise (AssertionError (must_be_dict results))
     end
   else ret tt) ;;;
  synchronize.

(** [EvalHook.after_val_iter] *)
Definition after_val_iter (self : EvalHook) (runner : Runner) : M unit :=
  if negb (by_epoch self) then
    r <- self_runner self runner ;;
    let next_iter := iter r + 1 in
    if (0 <? _period self) && (next_iter mod _period self =? 0) then
      r' <- self_runner self runner ;;
      if negb (next_iter =? max_iter r') then _do_eval self runner
      else ret tt
    else ret tt
  else ret tt.

(** [EvalHook.after_val_epoch] *)
Definition after_val_epoch (self : EvalHook) (runner : Runner) : M unit :=
  if by_epoch self then
    r <- self_runner self runner ;;
    let next_epoch := epoch r + 1 in
    if (0 <? _period self) && (next_epoch mod _period self =? 0) then
      r' <- self_runner self runner ;;
      if negb (next_epoch =? max_epoch r') then _do_eval self runner
      else ret tt
    else ret tt
  else ret tt.

(** [del self._func] *)
Definition del_func (self : EvalHook) : M EvalHook :=
  match _func self with
  | None => raise (AttributeError "_func")
  | Some _ =>
      ret {| base := base self; by_epoch := by_epoch self;
             _period := _period self; _func := None |}
  end.

(** [EvalHook.after_run]; it returns the hook as the method leaves it. *)
Definition after_run (self : EvalHook) (runner : Runner) : M EvalHook :=
  (if by_epoch self then
     r <- self_runner self runner ;;
     t <- self_trainer self runner ;;
     if max_epoch t <=? epoch r + 1 then _do_eval self runner else ret tt
   else
     r <- self_runner self runner ;;
     r' <- self_runner self runner ;;
     if max_iter r' <=? iter r + 1 then _do_eval self runner else ret tt) ;;;
  del_func self.

(** *** A by-epoch run, as the hook sees it *)

Inductive lifecycle := AfterValEpoch | AfterRun.

(** One lifecycle event of a run: which event, after how many completed
    epochs, and how many times the callback was invoked during it. *)
Record event := { ev_kind : lifecycle; ev_epochs_done : Z; ev_calls : nat }.

Definition at_epoch (r : Runner) (e : Z) : Runner :=
  {| iter := iter r; max_iter := max_iter r; epoch := e; max_epoch := max_epoch r |}.

(** Modelled from the spec: the runner is not part of the fragment.  After
    each of the remaining epochs it fires "after a validation epoch" with
    its epoch counter [e] still at the epoch just finished (so that
    [next_epoch = e + 1] is the number of epochs done); an error raised by a
    hook ends the run. *)
Fixpoint val_epochs (self : EvalHook) (r : Runner) (e : Z) (remaining : nat)
    (log : list event) (w : World) : res unit * list event * World :=
  match remaining with
  | O => (Ok tt, log, w)
  | S n =>
      let '(out, w') := after_val_epoch self (at_epoch r e) w in
      let log' := log ++ [{| ev_kind := AfterValEpoch; ev_epochs_done := e + 1;
                             ev_calls := invocations w w' |}] in
      match out with
      | Ok _ => val_epochs self r (e + 1) n log' w'
      | Raise ex => (Raise ex, log', w')
      end
  end.

(** Modelled from the spec: a full run of [max_epoch] epochs followed by
    "after run completes", the epoch counter resting at the last epoch. *)
Definition run_by_epoch (self : EvalHook) (r : Runner) (w : World)
    : res EvalHook * list event * World :=
  match val_epochs self r 0 (Z.to_nat (max_epoch r)) [] w with
  | (Ok _, log, w') =>
      let '(out, w'') := after_run self (at_epoch r (max_epoch r - 1)) w' in
      (out,
       log ++ [{| ev_kind := AfterRun; ev_epochs_done := max_epoch r;
                  ev_calls := invocations w' w'' |}],
       w'')
  | (Raise ex, log, w') => (Raise ex, log, w')
  end.

End DoEval.

(** Modelled from the spec: "flatten the nested mapping into dotted/qualified
    scalar keys".  A nested dictionary contributes its own flattened items
    under the outer key joined to theirs by [sep]; any other value is kept
    under its key. *)
Fixpoint flatten_obj (sep : string) (o : pyobj) : dict :=
  match o with
  | PyDict items =>
      (fix go (items : list (string * pyobj)) (r : dict) : dict :=
         match items with
         | [] => r
         | (k, v) :: rest =>
             go rest
                (match v with
                 | PyDict _ =>
                     fold_left (fun r kv => dict_set r (k +:+ sep +:+ kv.1) kv.2)
                               (flatten_obj sep v) r
                 | _ => dict_set r k v
                 end)
         end) items []
  | _ => []
  end.

Definition flatten_nested (sep : string) (results : dict) : dict :=
  flatten_obj sep (PyDict results).

(** *** Callbacks, hooks and runners to run the hook on *)

Definition half : spec_float := S754_finite false 4503599627370496 (-53).

Definition metrics : dict :=
  [("bbox", PyDict [("mAP", PyFloat half); ("AP50", PyInt 1)])].

Definition bad_metrics : dict :=
  [("bbox", PyDict [("mAP", PyObject "not-a-number" true None)])].

Definition bound_runner_only : Hook := {| has_runner := true; has_trainer := false |}.
Definition bound_both : Hook := {| has_runner := true; has_trainer := true |}.

Definition runner10 : Runner :=
  {| iter := 0; max_iter := 0; epoch := 0; max_epoch := 10 |}.

Definition ev (k : lifecycle) (n : Z) (c : nat) : event :=
  {| ev_kind := k; ev_epochs_done := n; ev_calls := c |}.

(** The schedule of a ten-epoch run with period 2, up to the end of the
    last epoch. *)
Definition periodic_2_of_10 : list event :=
  [ev AfterValEpoch 1 0; ev AfterValEpoch 2 1; ev AfterValEpoch 3 0;
   ev AfterValEpoch 4 1; ev AfterValEpoch 5 0; ev AfterValEpoch 6 1;
   ev AfterValEpoch 7 0; ev AfterValEpoch 8 1; ev AfterValEpoch 9 0;
   ev AfterValEpoch 10 0].

(** Further callback results: two values that [float] rejects, and a metric
    named like the keyword of [put_scalars]. *)
Definition two_bad : dict :=
  [("loss", PyFloat half); ("a", PyNone); ("b", PyObject "x" true None)].

Definition hint_metrics : dict := [("smoothing_hint", PyFloat half)].

End EvalHook.

(** ** detecter/dataset/custom.py *)

Module CustomDataset.

(** [result['img_info']] *)
Record ImgInfo := {
  width : Z;
  height : Z;
  filename : string
}.

(** A data-info record.  The two keys that [pre_pipeline] assigns are
    absent ([None]) until it has run on the record; [others] holds every
    further entry (annotations, and what pipeline steps store). *)
Record DataInfo := {
  img_info : ImgInfo;
  key_img_prefix : option (option string);
  key_bbox_fields : option (list string);
  others : dict
}.

(** The [classes] argument of [get_classes], by its run-time type. *)
Inductive classes_arg :=
| ClassesNone
| ClassesStr (path : string)
| ClassesList (names : list string)
| ClassesTuple (names : list string)
| ClassesOther (type_name : string).

(** A value of [CLASSES]. *)
Inductive class_names :=
| NamesNone
| NamesList (names : list string)
| NamesTuple (names : list string).

(** The pipeline built by [Compose]: called on a record, it may write to
    that record and returns the processed sample, [None] for an invalid one,
    or raises.  The first component is the record as the call leaves it. *)
Definition Pipeline := DataInfo -> DataInfo * res pyobj.

(** The members of the class that a concrete dataset overrides. *)
Record Class := {
  cls_CLASSES : class_names;
  load_annotations : string -> option (list DataInfo)
}.

(** The class as written: [CLASSES = None], and a [load_annotations] whose
    body is [pass]. *)
Definition base_class : Class :=
  {| cls_CLASSES := NamesNone; load_annotations := fun _ => None |}.

Record CustomDataset := {
  ann_file : string;
  data_root : option string;
  img_prefix : option string;
  test_mode : bool;
  filter_empty_gt : bool;
  CLASSES : class_names;
  data_infos : option (list DataInfo);
  pipeline : Pipeline
}.

Definition set_data_infos (self : CustomDataset) (infos : option (list DataInfo))
    : CustomDataset :=
  {| ann_file := ann_file self; data_root := data_root self;
     img_prefix := img_prefix self; test_mode := test_mode self;
     filter_empty_gt := filter_empty_gt self; CLASSES := CLASSES self;
     data_infos := infos; pipeline := pipeline self |}.

(** The names bound at module level in [custom.py]: its imports, [__all__]
    and the class itself. *)
Definition module_globals : list string :=
  ["osp"; "warnings"; "np"; "Dataset"; "DATASETS"; "Compose"; "__all__";
   "CustomDataset"].

(** Evaluating a global name. *)
Definition global (name : string) : res unit :=
  if bool_decide (name ∈ module_globals) then Ok tt else Raise (NameError name).

(** The files that can be read: the lines of each. *)
Definition Files := string -> option (list string).

(** Modelled from the spec: [list_from_file] belongs to a library outside
    the fragment; it "reads one class name per line". *)
Definition list_from_file (fs : Files) (path : string) : res (list string) :=
  match fs path with
  | Some lines => Ok lines
  | None => Raise (UserError "FileNotFoundError")
  end.

(** [CustomDataset.get_classes] *)
Definition get_classes (cls : Class) (fs : Files) (classes : classes_arg)
    : res class_names :=
  match classes with
  | ClassesNone => Ok (cls_CLASSES cls)
  | ClassesStr path =>
      match global "mmcv" with
      | Raise e => Raise e
      | Ok _ =>
          match list_from_file fs path with
          | Ok class_names => Ok (NamesList class_names)
          | Raise e => Raise e
          end
      end
  | ClassesList names => Ok (NamesList names)
  | ClassesTuple names => Ok (NamesTuple names)
  | ClassesOther type_name =>
      Raise (ValueError (Msg "Unsupported type {} of classes." [ArgType type_name]))
  end.

(** [posixpath.isabs] and [posixpath.join] on two components. *)
Definition isabs (s : string) : bool :=
  match s with
  | String c _ => bool_decide (c = "/"%char)
  | EmptyString => false
  end.

Fixpoint endswith_sep (s : string) : bool :=
  match s with
  | EmptyString => false
  | String c EmptyString => bool_decide (c = "/"%char)
  | String _ rest => endswith_sep rest
  end.

Definition join (a b : string) : string :=
  if isabs b then b
  else if bool_decide (a = "") || endswith_sep a then a +:+ b
  else a +:+ "/" +:+ b.

(** [l[i]] for a Python index: the position it denotes, or [IndexError]. *)
Definition py_index {A} (l : list A) (i : Z) : res nat :=
  let n := Z.of_nat (length l) in
  if (0 <=? i) && (i <? n) then Ok (Z.to_nat i)
  else if (- n <=? i) && (i <? 0) then Ok (Z.to_nat (i + n))
  else Raise IndexError.

Definition py_getitem {A} (l : list A) (i : Z) : res A :=
  match py_index l i with
  | Ok p => match l !! p with Some a => Ok a | None => Raise IndexError end
  | Raise e => Raise e
  end.

Definition not_iterable : exn := TypeError "'NoneType' object is not iterable".
Definition not_subscriptable : exn :=
  TypeError "'NoneType' object is not subscriptable".
Definition no_len : exn := TypeError "object of type 'NoneType' has no len()".

Definition empty_gt_warning : string :=
  "CustomDataset does not support filtering empty gt images.".

(** The loop of [_filter_imgs] over [enumerate(self.data_infos)], from
    position [i] on. *)
Fixpoint filter_loop (min_size : Z) (i : Z) (infos : list DataInfo)
    (valid_inds : list Z) : list Z :=
  match infos with
  | [] => valid_inds
  | result :: rest =>
      let img_info := img_info result in
      filter_loop min_size (i + 1) rest
        (if min_size <=? Z.min (width img_info) (height img_info)
         then valid_inds ++ [i] else valid_inds)
  end.

(** [CustomDataset._filter_imgs]: the indices kept, and the warnings
    issued. *)
Definition _filter_imgs (self : CustomDataset) (min_size : Z)
    : res (list Z) * list string :=
  let warned := if filter_empty_gt self then [empty_gt_warning] else [] in
  match data_infos self with
  | None => (Raise not_iterable, warned)
  | Some infos => (Ok (filter_loop min_size 0 infos []), warned)
  end.

(** [[self.data_infos[i] for i in valid_inds]] *)
Fixpoint select (infos : list DataInfo) (valid_inds : list Z)
    : res (list DataInfo) :=
  match valid_inds with
  | [] => Ok []
  | i :: rest =>
      match py_getitem infos i with
      | Raise e => Raise e
      | Ok d =>
          match select infos rest with
          | Raise e => Raise e
          | Ok ds => Ok (d :: ds)
          end
      end
  end.

(** [CustomDataset.__init__]; [Compose(pipeline)] is the pipeline it is
    given.  It returns the dataset or the error, and the warnings issued. *)
Definition __init__ (cls : Class) (fs : Files)
    (ann_file : string) (pipeline : Pipeline) (classes : classes_arg)
    (data_root : option string) (img_prefix : option string)
    (test_mode : bool) (filter_empty_gt : bool)
    : res CustomDataset * list string :=
  match get_classes cls fs classes with
  | Raise e => (Raise e, [])
  | Ok class_names =>
      let ann_file :=
        match data_root with
        | Some root => if negb (isabs ann_file) then join root ann_file else ann_file
        | None => ann_file
        end in
      let img_prefix :=
        match data_root, img_prefix with
        | Some root, Some prefix =>
            if negb (isabs prefix) then Some (join root prefix) else Some prefix
        | _, _ => img_prefix
        end in
      let self :=
        {| ann_file := ann_file; data_root := data_root;
           img_prefix := img_prefix; test_mode := test_mode;
           filter_empty_gt := filter_empty_gt; CLASSES := class_names;
           data_infos := load_annotations cls ann_file;
           pipeline := pipeline |} in
      if negb test_mode then
        match _filter_imgs self 32 with
        | (Raise e, warned) => (Raise e, warned)
        | (Ok valid_inds, warned) =>
            match data_infos self with
            | None => (Raise not_subscriptable, warned)
            | Some infos =>
                match select infos valid_inds with
                | Raise e => (Raise e, warned)
                | Ok kept => (Ok (set_data_infos self (Some kept)), warned)
                end
            end
        end
      else (Ok self, [])
  end.

(** [CustomDataset.__len__] *)
Definition __len__ (self : CustomDataset) : res Z :=
  match data_infos self with
  | None => Raise no_len
  | Some infos => Ok (Z.of_nat (length infos))
  end.

(** [CustomDataset.pre_pipeline]: the record after the two assignments. *)
Definition pre_pipeline (self : CustomDataset) (results : DataInfo) : DataInfo :=
  {| img_info := img_info results;
     key_img_prefix := Some (img_prefix self);
     key_bbox_fields := Some [];
     others := others results |}.

(** One run of the pipeline: the position of the record and the record as
    it was handed over. *)
Definition pipeline_call : Type := nat * DataInfo.

(** What a retrieval leaves behind: the dataset, whose records are written
    in place, the random draws not yet consumed, and the pipeline runs in
    order. *)
Record Store := {
  dataset : CustomDataset;
  draws : list Z;
  runs : list pipeline_call
}.

(** [CustomDataset.prepare_img].  [results] is the stored record itself,
    not a copy: what [pre_pipeline] and the pipeline write lands in
    [self.data_infos], at the position read.  Here each position of the
    list holds an object of its own; [Objects.prepare_img] below is the
    same method on a list in which positions may share an object. *)
Definition prepare_img (s : Store) (idx : Z) : res pyobj * Store :=
  let self := dataset s in
  match data_infos self with
  | None => (Raise not_subscriptable, s)
  | Some infos =>
      match py_index infos idx with
      | Raise e => (Raise e, s)
      | Ok p =>
          match infos !! p with
          | None => (Raise IndexError, s)
          | Some results =>
              let results := pre_pipeline self results in
              let '(results', out) := pipeline self results in
              (out,
               {| dataset := set_data_infos self (Some (<[p := results']> infos));
                  draws := draws s;
                  runs := runs s ++ [(p, results)] |})
          end
      end
  end.

(** [CustomDataset._rand_another]: [np.random.choice(len(self))] raises on
    an empty dataset and otherwise returns the next draw, [draws] being the
    values the generator is going to return; [None] when no draw is left
    to take. *)
Definition _rand_another (s : Store) (idx : Z) : option (res Z * Store) :=
  match __len__ (dataset s) with
  | Raise e => Some (Raise e, s)
  | Ok n =>
      if n <=? 0 then Some (Raise (ValueError (Msg "a must be greater than 0" [])), s)
      else
        match draws s with
        | [] => None
        | d :: rest =>
            Some (Ok d, {| dataset := dataset s; draws := rest; runs := runs s |})
        end
  end.

(** The [while True] loop of [__getitem__]; [fuel] bounds the number of
    rounds.  [None]: the loop is still running when the fuel or the draws
    are used up. *)
Fixpoint retry (fuel : nat) (s : Store) (idx : Z) : option (res pyobj * Store) :=
  match fuel with
  | O => None
  | S fuel' =>
      match prepare_img s idx with
      | (Raise e, s') => Some (Raise e, s')
      | (Ok PyNone, s') =>
          match _rand_another s' idx with
          | None => None
          | Some (Raise e, s'') => Some (Raise e, s'')
          | Some (Ok idx', s'') => retry fuel' s'' idx'
          end
      | (Ok data, s') => Some (Ok data, s')
      end
  end.

(** [CustomDataset.__getitem__] *)
Definition __getitem__ (fuel : nat) (s : Store) (idx : Z)
    : option (res pyobj * Store) :=
  if test_mode (dataset s) then Some (prepare_img s idx)
  else retry fuel s idx.

(** [CustomDataset.get_global_metas] *)
Definition get_global_metas (self : CustomDataset) : list (string * class_names) :=
  [("class", CLASSES self)].

(** *** Notions used to state the properties *)

(** A record meets the minimum size when both its width and its height
    do. *)
Definition meets_min_size (min_size : Z) (d : DataInfo) : Prop :=
  min_size <= width (img_info d) /\ min_size <= height (img_info d).

#[export] Instance meets_min_size_dec m d : Decision (meets_min_size m d).
Proof. unfold meets_min_size. apply _. Defined.

(** The pipeline makes a sample of the record. *)
Definition accepted (self : CustomDataset) (d : DataInfo) : Prop :=
  exists data, (pipeline self (pre_pipeline self d)).2 = Ok data /\ data <> PyNone.

(** *** Records, classes and pipelines to run the dataset on *)

Definition record (w h : Z) (name : string) : DataInfo :=
  {| img_info := {| width := w; height := h; filename := name |};
     key_img_prefix := None; key_bbox_fields := None; others := [] |}.

Definition loaded3 : list DataInfo :=
  [record 640 480 "a.jpg"; record 20 100 "tiny.jpg"; record 32 32 "b.jpg"].

(** A concrete dataset class: it overrides [CLASSES] and
    [load_annotations]. *)
Definition coco_like : Class :=
  {| cls_CLASSES := NamesTuple ["person"; "car"];
     load_annotations := fun _ => Some loaded3 |}.

Definition no_files : Files := fun _ => None.

(** A pipeline that finds nothing in [empty.jpg] and otherwise returns a
    sample named after the image; it leaves the record as it gets it. *)
Definition pipeline_ex : Pipeline :=
  fun r =>
    (r, if bool_decide (filename (img_info r) = "empty.jpg") then Ok PyNone
        else Ok (PyObject (filename (img_info r)) true None)).

Definition built : CustomDataset :=
  {| ann_file := "ann.json"; data_root := None; img_prefix := Some "val2017/";
     test_mode := false; filter_empty_gt := true;
     CLASSES := NamesTuple ["person"; "car"];
     data_infos := Some [record 640 480 "a.jpg"; record 32 32 "b.jpg"];
     pipeline := pipeline_ex |}.

Definition infos_ex : list DataInfo :=
  [record 640 480 "empty.jpg"; record 640 480 "a.jpg"; record 32 32 "b.jpg"].

Definition dataset_ex (test : bool) : CustomDataset :=
  {| ann_file := "ann.json"; data_root := None; img_prefix := Some "val2017/";
     test_mode := test; filter_empty_gt := true;
     CLASSES := NamesTuple ["person"; "car"];
     data_infos := Some infos_ex;
     pipeline := pipeline_ex |}.

Definition test_store : Store :=
  {| dataset := dataset_ex true; draws := [2; 1]; runs := [] |}.

Definition train_store : Store :=
  {| dataset := dataset_ex false; draws := [0; 0; 2; 1]; runs := [] |}.

(** *** Further notions and fixtures *)

(** The paths [__init__] stores, given [data_root]. *)
Definition resolved_ann_file (data_root : option string) (ann_file : string)
    : string :=
  match data_root with
  | Some root => if negb (isabs ann_file) then join root ann_file else ann_file
  | None => ann_file
  end.

Definition resolved_img_prefix (data_root img_prefix : option string)
    : option string :=
  match data_root, img_prefix with
  | Some root, Some prefix =>
      if negb (isabs prefix) then Some (join root prefix) else Some prefix
  | _, _ => img_prefix
  end.

(** The record at position [p] reaches [min_size] in both dimensions. *)
Definition large_at (min_size : Z) (infos : list DataInfo) (p : nat) : Prop :=
  exists d, infos !! p = Some d /\
            min_size <= Z.min (width (img_info d)) (height (img_info d)).

(** A pipeline whose first step cannot read the image. *)
Definition pipeline_unreadable : Pipeline :=
  fun r => (r, Raise (UserError "FileNotFoundError")).

Definition unreadable_store : Store :=
  {| dataset :=
       {| ann_file := "ann.json"; data_root := None; img_prefix := None;
          test_mode := false; filter_empty_gt := true; CLASSES := NamesNone;
          data_infos := Some infos_ex; pipeline := pipeline_unreadable |};
     draws := [1; 2]; runs := [] |}.

(** A dataset none of whose images holds anything. *)
Definition all_empty : list DataInfo :=
  [record 640 480 "empty.jpg"; record 320 240 "empty.jpg"].

Definition spinning_store : Store :=
  {| dataset :=
       {| ann_file := "ann.json"; data_root := None; img_prefix := None;
          test_mode := false; filter_empty_gt := true; CLASSES := NamesNone;
          data_infos := Some all_empty; pipeline := pipeline_ex |};
     draws := [1; 0; 1; 1]; runs := [] |}.

(** *** The records as objects *)

Module Objects.

(** [self.data_infos] as a list of objects.  The [data_infos] of [base]
    lists the dict objects themselves, each once; [slots] is the Python
    list, giving the object that each of its positions holds.  Two
    positions may hold one and the same object: what is written to it
    shows at both.  The log of [base] records each pipeline run by the
    object handed over. *)
Record ObjectStore := {
  base : Store;
  slots : list nat
}.

(** [self.data_infos[p]]: the record that position [p] reads. *)
Definition read (s : ObjectStore) (p : nat) : option DataInfo :=
  match data_infos (dataset (base s)), slots s !! p with
  | Some objects, Some o => objects !! o
  | _, _ => None
  end.

(** [CustomDataset.__len__] *)
Definition __len__ (s : ObjectStore) : res Z :=
  match data_infos (dataset (base s)) with
  | None => Raise no_len
  | Some _ => Ok (Z.of_nat (length (slots s)))
  end.

(** [CustomDataset.prepare_img]: [results] is the object held at [idx];
    [pre_pipeline] and the pipeline write to that object. *)
Definition prepare_img (s : ObjectStore) (idx : Z) : res pyobj * ObjectStore :=
  let self := dataset (base s) in
  match data_infos self with
  | None => (Raise not_subscriptable, s)
  | Some objects =>
      match py_index (slots s) idx with
      | Raise e => (Raise e, s)
      | Ok p =>
          match slots s !! p with
          | None => (Raise IndexError, s)
          | Some o =>
              match objects !! o with
              | None => (Raise IndexError, s)
              | Some results =>
                  let results := pre_pipeline self results in
                  let '(results', out) := pipeline self results in
                  (out,
                   {| base :=
                        {| dataset :=
                             set_data_infos self (Some (<[o := results']> objects));
                           draws := draws (base s);
                           runs := runs (base s) ++ [(o, results)] |};
                      slots := slots s |})
              end
          end
      end
  end.

(** [CustomDataset._rand_another] *)
Definition _rand_another (s : ObjectStore) (idx : Z)
    : option (res Z * ObjectStore) :=
  match __len__ s with
  | Raise e => Some (Raise e, s)
  | Ok n =>
      if n <=? 0 then Some (Raise (ValueError (Msg "a must be greater than 0" [])), s)
      else
        match draws (base s) with
        | [] => None
        | d :: rest =>
            Some (Ok d,
                  {| base := {| dataset := dataset (base s); draws := rest;
                                runs := runs (base s) |};
                     slots := slots s |})
        end
  end.

(** The [while True] loop of [__getitem__]. *)
Fixpoint retry (fuel : nat) (s : ObjectStore) (idx : Z)
    : option (res pyobj * ObjectStore) :=
  match fuel with
  | O => None
  | S fuel' =>
      match prepare_img s idx with
      | (Raise e, s') => Some (Raise e, s')
      | (Ok PyNone, s') =>
          match _rand_another s' idx with
          | None => None
          | Some (Raise e, s'') => Some (Raise e, s'')
          | Some (Ok idx', s'') => retry fuel' s'' idx'
          end
      | (Ok data, s') => Some (Ok data, s')
      end
  end.

(** [CustomDataset.__getitem__] *)
Definition __getitem__ (fuel : nat) (s : ObjectStore) (idx : Z)
    : option (res pyobj * ObjectStore) :=
  if test_mode (dataset (base s)) then Some (prepare_img s idx)
  else retry fuel s idx.

(** A store each position of whose list holds an object of its own. *)
Definition own_objects (s : Store) : ObjectStore :=
  {| base := s;
     slots := match data_infos (dataset s) with
              | Some infos => seq 0 (length infos)
              | None => []
              end |}.




Definition shared_objects : ObjectStore :=
  {| base := test_store; slots := [0; 0; 2]%nat |}.

End Objects.

End CustomDataset.

(** * Properties of the evaluation hook *)

Module EvalHookFacts.
Import EvalHook.

Local Arguments py_float : simpl never.

Section Facts.

Variable flatten_results_dict : dict -> dict.

Local Abbreviation do_eval := (_do_eval flatten_results_dict).

Ltac unfold_m :=
  unfold bind, ret, raise, put_scalars, synchronize, call_func,
    self_runner, self_trainer, del_func in *.

(** The checking loop never touches the world. *)
Lemma check_floats_world items w : (check_floats items w).2 = w.
Proof.
  induction items as [|[k v] rest IH]; simpl; [done|].
  destruct (py_float v); [apply IH | done].
Qed.

Lemma check_floats_ok items w :
  Forall (fun kv => is_Some (py_float kv.2)) items ->
  check_floats items w = (Ok tt, w).
Proof.
  induction 1 as [|[k v] rest [v' Hv] _ IH]; simpl; [done|].
  simpl in Hv. by rewrite Hv.
Qed.

(** The loop stops at the first item that [float] rejects. *)
Lemma check_floats_raise items w :
  Exists (fun kv => py_float kv.2 = None) items ->
  exists before k v after,
    items = before ++ (k, v) :: after /\
    Forall (fun kv => is_Some (py_float kv.2)) before /\
    py_float v = None /\
    check_floats items w = (Raise (ValueError (must_be_float k v)), w).
Proof.
  induction items as [|[k v] rest IH]; intros Hex.
  - by apply Exists_nil in Hex.
  - destruct (py_float v) as [v'|] eqn:Hv.
    + apply Exists_cons in Hex as [Hex|Hex]; [simpl in Hex; congruence|].
      destruct (IH Hex) as (before & k' & v0 & after & -> & Hb & Hv0 & Hrun).
      exists ((k, v) :: before), k', v0, after. repeat split; try done.
      * constructor; [simpl; by rewrite Hv | done].
      * simpl. by rewrite Hv.
    + exists [], k, v, rest. repeat split; try done. simpl. by rewrite Hv.
Qed.

(** An evaluation pass invokes the callback exactly once. *)
Lemma do_eval_invocations self f runner w :
  _func self = Some f ->
  calls (do_eval self runner w).2 = S (calls w).
Proof.
  intros Hf. unfold _do_eval. unfold_m. rewrite Hf.
  destruct (f (calls w)) as [results|e]; [|done].
  destruct (truthy results); [|done].
  destruct results as [| | |d|]; try done.
  pose proof (check_floats_world (flatten_results_dict d)
    {| calls := S (calls w); storage := storage w; barriers := barriers w |}) as Hw.
  destruct (check_floats _ _) as [[[]|e] w1]; simpl in Hw; subst w1; [|done].
  by case_bool_decide.
Qed.

(** C1. On a hook constructed with [by_epoch = False] that sees its runner
    as [self.runner], an "after a validation iteration" event invokes the
    evaluation callback if and only if [period > 0],
    [(iter + 1) % period == 0] and [iter + 1 != max_iter]. *)
Theorem after_val_iter_invokes_iff
    (hook : Hook) (f : callback) (period : Z) (runner : Runner) (w : World) :
  has_runner hook = true ->
  let self := __init__ hook f false period in
  (0 < invocations w (after_val_iter flatten_results_dict self runner w).2)%nat
  <-> (0 < period /\ (iter runner + 1) mod period = 0
       /\ iter runner + 1 <> max_iter runner).
Proof.
  intros Hr self. unfold invocations, after_val_iter. simpl.
  unfold self_runner, bind, ret. simpl. rewrite Hr. simpl.
  destruct (0 <? period) eqn:Hp; simpl.
  - apply Z.ltb_lt in Hp.
    destruct (_ mod _ =? 0) eqn:Hm; simpl.
    + apply Z.eqb_eq in Hm.
      destruct (_ =? max_iter runner) eqn:Hx; simpl.
      * apply Z.eqb_eq in Hx. split; [lia | tauto].
      * apply Z.eqb_neq in Hx.
        rewrite (do_eval_invocations self f runner w eq_refl).
        split; [tauto | lia].
    + apply Z.eqb_neq in Hm. split; [lia | tauto].
  - apply Z.ltb_ge in Hp. split; [lia | lia].
Qed.

(** [float] returns a float or raises. *)
Lemma py_float_is_float v v' : py_float v = Some v' -> exists x, v' = PyFloat x.
Proof.
  unfold py_float. destruct v as [|z|x|d|r t c]; try done.
  - destruct (float_of_int z); [|done]. intros [= <-]. eauto.
  - intros [= <-]. eauto.
  - destruct c; [|done]. intros [= <-]. eauto.
Qed.

(** Without a [trainer] attribute the by-epoch branch of [after_run] stops
    at [self.trainer]: no evaluation, and the callback is not released. *)
Lemma after_run_by_epoch_needs_trainer self runner w :
  by_epoch self = true ->
  has_runner (base self) = true ->
  has_trainer (base self) = false ->
  after_run flatten_results_dict self runner w
  = (Raise (AttributeError "trainer"), w).
Proof.
  intros Hb Hr Ht. unfold after_run. unfold_m. by rewrite Hb, Hr, Ht.
Qed.

(** The by-iteration branch reads both counters through [self.runner]. *)
Lemma after_run_by_iter_evaluates self f runner w :
  by_epoch self = false ->
  has_runner (base self) = true ->
  _func self = Some f ->
  max_iter runner <= iter runner + 1 ->
  calls (after_run flatten_results_dict self runner w).2 = S (calls w).
Proof.
  intros Hb Hr Hf Hle. unfold after_run, self_runner, del_func, bind.
  rewrite Hb, Hr, Hf. unfold ret. apply Z.leb_le in Hle. rewrite Hle.
  pose proof (do_eval_invocations self f runner w Hf) as Hc.
  destruct (do_eval self runner w) as [[[]|e] w1]; simpl in *; done.
Qed.

(** The texts of the two error messages of an evaluation pass. *)
Lemma render_must_be_float str_of k v :
  render str_of (must_be_float k v)
  = Some ("[EvalHook] eval_function should return a nested dict of float. Got '"
          +:+ k +:+ ": " +:+ str_of v +:+ "' instead.").
Proof. reflexivity. Qed.

Lemma render_must_be_dict str_of results :
  render str_of (must_be_dict results)
  = Some ("Eval function must return a dict. Got " +:+ str_of results
          +:+ " instead.").
Proof. reflexivity. Qed.

(** C3. When the callback returns a non-empty dictionary one of whose
    flattened values [float] rejects, the pass raises a [ValueError] whose
    message is formatted from an offending flattened key and its value,
    reading [... Got 'key: value' instead.], and the metrics store receives
    nothing. *)
Theorem do_eval_rejects_non_float
    (self : EvalHook) (f : callback) (runner : Runner) (w : World) (d : dict) :
  _func self = Some f ->
  f (calls w) = Ok (PyDict d) ->
  d <> [] ->
  Exists (fun kv => py_float kv.2 = None) (flatten_results_dict d) ->
  exists k v msg,
    (k, v) ∈ flatten_results_dict d /\
    py_float v = None /\
    do_eval self runner w
    = (Raise (ValueError msg),
       {| calls := S (calls w); storage := storage w; barriers := barriers w |}) /\
    args msg = [ArgStr k; ArgObj v] /\
    forall str_of : pyobj -> string,
      render str_of msg
      = Some ("[EvalHook] eval_function should return a nested dict of float. Got '"
              +:+ k +:+ ": " +:+ str_of v +:+ "' instead.").
Proof.
  intros Hf Hres Hne Hex.
  set (w1 := {| calls := S (calls w); storage := storage w; barriers := barriers w |}).
  destruct (check_floats_raise _ w1 Hex)
    as (before & k & v & after & Hitems & _ & Hv & Hrun).
  exists k, v, (must_be_float k v). split; [|split; [done|split; [|split]]].
  - rewrite Hitems. apply elem_of_app. right. apply elem_of_cons. by left.
  - unfold _do_eval. unfold_m. rewrite Hf, Hres.
    destruct d as [|kv d']; [done|].
    change (truthy (PyDict (kv :: d'))) with true. cbv beta iota.
    fold w1. by rewrite Hrun.
  - reflexivity.
  - intros str_of. apply render_must_be_float.
Qed.

(** C4, as the code has it.  When the callback returns a non-empty
    dictionary all of whose flattened values [float] accepts, the only call
    the metrics store receives carries the flattened values themselves,
    unchanged, with [smoothing_hint=False]; and it does receive that call
    unless a flattened key collides with the keyword [smoothing_hint]. *)
Theorem do_eval_publishes_unchanged
    (self : EvalHook) (f : callback) (runner : Runner) (w : World) (d : dict) :
  _func self = Some f ->
  f (calls w) = Ok (PyDict d) ->
  d <> [] ->
  Forall (fun kv => is_Some (py_float kv.2)) (flatten_results_dict d) ->
  let published :=
    {| put_kwargs := flatten_results_dict d; put_smoothing_hint := false |} in
  (forall rec, rec ∈ storage (do_eval self runner w).2 ->
               rec ∈ storage w \/ rec = published) /\
  ("smoothing_hint" ∉ dict_keys (flatten_results_dict d) ->
   do_eval self runner w
   = (Ok tt, {| calls := S (calls w);
                storage := storage w ++ [published];
                barriers := S (barriers w) |})).
Proof.
  intros Hf Hres Hne Hall published.
  set (w1 := {| calls := S (calls w); storage := storage w; barriers := barriers w |}).
  assert (Hrun : do_eval self runner w
    = if bool_decide ("smoothing_hint" ∈ dict_keys (flatten_results_dict d))
      then (Raise (TypeError "got multiple values for keyword argument 'smoothing_hint'"), w1)
      else (Ok tt, {| calls := S (calls w);
                      storage := storage w ++ [published];
                      barriers := S (barriers w) |})).
  { unfold _do_eval. unfold_m. rewrite Hf, Hres.
    destruct d as [|kv d']; [done|].
    change (truthy (PyDict (kv :: d'))) with true. cbv beta iota.
    fold w1. rewrite (check_floats_ok _ w1 Hall).
    by case_bool_decide. }
  rewrite Hrun. split.
  - intros rec. case_bool_decide; simpl.
    + by left.
    + intros [Hin|Hin]%elem_of_app; [by left|].
      apply list_elem_of_singleton in Hin. by right.
  - intros Hk. by rewrite bool_decide_eq_false_2.
Qed.

End Facts.

(** C2 on the code.  [EvalHook(f, by_epoch=True, eval_period=2)] on a runner
    with [max_epoch = 10] that is bound as [self.runner]: the periodic path
    evaluates once after each of epochs 2, 4, 6 and 8 and not after epoch
    10, but "after run completes" reads [self.trainer.max_epoch], raises
    [AttributeError] and runs no evaluation after epoch 10. *)
Theorem by_epoch_run_misses_final_eval :
  let '(out, log, w) :=
    run_by_epoch (flatten_nested "/")
      (__init__ bound_runner_only (fun _ => Ok (PyDict metrics)) true 2)
      runner10 world0 in
  out = Raise (AttributeError "trainer") /\
  log = periodic_2_of_10 ++ [ev AfterRun 10 0] /\
  calls w = 4%nat.
Proof. vm_compute. repeat split. Qed.

(** Were [trainer] bound to the runner as well, the run would evaluate once
    more, after epoch 10, through "after run completes". *)
Lemma by_epoch_run_with_trainer_bound :
  let '(out, log, w) :=
    run_by_epoch (flatten_nested "/")
      (__init__ bound_both (fun _ => Ok (PyDict metrics)) true 2)
      runner10 world0 in
  is_ok out = true /\
  log = periodic_2_of_10 ++ [ev AfterRun 10 1] /\
  calls w = 5%nat.
Proof. vm_compute. repeat split. Qed.

Lemma do_eval_rejects_non_float_witness :
  exists k v msg,
    (k, v) ∈ flatten_nested "/" bad_metrics /\
    py_float v = None /\
    _do_eval (flatten_nested "/")
      (__init__ bound_both (fun _ => Ok (PyDict bad_metrics)) true 2)
      runner10 world0
    = (Raise (ValueError msg),
       {| calls := 1; storage := []; barriers := 0 |}) /\
    args msg = [ArgStr k; ArgObj v] /\
    forall str_of : pyobj -> string,
      render str_of msg
      = Some ("[EvalHook] eval_function should return a nested dict of float. Got '"
              +:+ k +:+ ": " +:+ str_of v +:+ "' instead.").
Proof.
  apply (do_eval_rejects_non_float (flatten_nested "/")
           (__init__ bound_both (fun _ => Ok (PyDict bad_metrics)) true 2)
           (fun _ => Ok (PyDict bad_metrics)) runner10 world0 bad_metrics).
  - reflexivity.
  - reflexivity.
  - discriminate.
  - vm_compute. apply Exists_cons_hd. reflexivity.
Defined.

Lemma do_eval_publishes_unchanged_witness :
  _do_eval (flatten_nested "/")
    (__init__ bound_both (fun _ => Ok (PyDict metrics)) true 2)
    runner10 world0
  = (Ok tt,
     {| calls := 1;
        storage := [{| put_kwargs := flatten_nested "/" metrics;
                       put_smoothing_hint := false |}];
        barriers := 1 |}).
Proof.
  apply (do_eval_publishes_unchanged (flatten_nested "/")
           (__init__ bound_both (fun _ => Ok (PyDict metrics)) true 2)
           (fun _ => Ok (PyDict metrics)) runner10 world0 metrics).
  - reflexivity.
  - reflexivity.
  - discriminate.
  - vm_compute. repeat constructor; eexists; reflexivity.
  - vm_compute. intros H. repeat (apply elem_of_cons in H as [H|H]; [discriminate|]).
    by apply elem_of_nil in H.
Defined.

(** C4 as stated fails: [AP50 = 1] passes the check ([float(1)] is [1.0]),
    and what the store receives under [bbox/AP50] is the integer [1], which
    is the [float] of nothing. *)
Lemma published_scalar_not_coerced :
  let w' :=
    (_do_eval (flatten_nested "/")
       (__init__ bound_both (fun _ => Ok (PyDict metrics)) true 2)
       runner10 world0).2 in
  metrics <> [] /\
  Forall (fun kv => is_Some (py_float kv.2)) (flatten_nested "/" metrics) /\
  exists rec k v',
    rec ∈ storage w' /\ (k, v') ∈ put_kwargs rec /\
    ~ exists v, (k, v) ∈ flatten_nested "/" metrics /\ py_float v = Some v'.
Proof.
  split; [discriminate|]. split.
  { vm_compute. repeat constructor; eexists; reflexivity. }
  exists {| put_kwargs := flatten_nested "/" metrics; put_smoothing_hint := false |},
    "bbox/AP50", (PyInt 1).
  split; [|split].
  - vm_compute. apply list_elem_of_here.
  - vm_compute. apply list_elem_of_further, list_elem_of_here.
  - intros (v & _ & Hv). apply py_float_is_float in Hv as [x Hx]. discriminate.
Qed.

Lemma after_val_iter_invokes_iff_witness :
  (0 < invocations world0
         (after_val_iter (flatten_nested "/")
            (__init__ bound_runner_only (fun _ => Ok (PyDict metrics)) false 5)
            {| iter := 9; max_iter := 100; epoch := 0; max_epoch := 1 |}
            world0).2)%nat.
Proof.
  apply (after_val_iter_invokes_iff (flatten_nested "/") bound_runner_only
           (fun _ => Ok (PyDict metrics)) 5
           {| iter := 9; max_iter := 100; epoch := 0; max_epoch := 1 |} world0).
  - reflexivity.
  - simpl. split; [lia | split; [reflexivity | lia]].
Defined.

End EvalHookFacts.

(** * Properties of the dataset base class *)

Module CustomDatasetFacts.
Import CustomDataset.

(** *** Construction *)

Lemma py_index_in_range {A} (l : list A) (i : Z) :
  0 <= i < Z.of_nat (length l) -> py_index l i = Ok (Z.to_nat i).
Proof.
  intros [H0 H1]. unfold py_index.
  apply Z.leb_le in H0. apply Z.ltb_lt in H1. by rewrite H0, H1.
Qed.

Lemma py_getitem_middle {A} (pre suf : list A) (x : A) :
  py_getitem (pre ++ x :: suf) (Z.of_nat (length pre)) = Ok x.
Proof.
  unfold py_getitem. rewrite py_index_in_range.
  - rewrite Nat2Z.id. by rewrite list_lookup_middle.
  - rewrite length_app. simpl. lia.
Qed.

Lemma select_app infos a b xs ys :
  select infos a = Ok xs -> select infos b = Ok ys ->
  select infos (a ++ b) = Ok (xs ++ ys).
Proof.
  revert xs. induction a as [|i a IH]; simpl; intros xs Ha Hb.
  - by injection Ha as <-.
  - destruct (py_getitem infos i) as [d|e]; [|done].
    destruct (select infos a) as [ds|e]; [|done].
    injection Ha as <-. by rewrite (IH ds eq_refl Hb).
Qed.

(** The indices collected by the loop select, in order, the records that
    meet the minimum size. *)
Lemma filter_loop_select min_size suf : forall pre acc kept,
  select (pre ++ suf) acc = Ok kept ->
  select (pre ++ suf) (filter_loop min_size (Z.of_nat (length pre)) suf acc)
  = Ok (kept ++ filter (meets_min_size min_size) suf).
Proof.
  induction suf as [|d rest IH]; intros pre acc kept Hacc; simpl.
  - rewrite filter_nil, (app_nil_r kept). exact Hacc.
  - replace (Z.of_nat (length pre) + 1) with (Z.of_nat (length (pre ++ [d])))
      by (rewrite length_app; simpl; lia).
    replace (pre ++ d :: rest) with ((pre ++ [d]) ++ rest) in *
      by (by rewrite <- app_assoc).
    rewrite filter_cons.
    destruct (Z.leb_spec min_size (Z.min (width (img_info d)) (height (img_info d))))
      as [Hle|Hlt].
    + rewrite decide_True by (unfold meets_min_size; lia).
      rewrite (IH (pre ++ [d]) (acc ++ [Z.of_nat (length pre)]) (kept ++ [d])).
      * by rewrite <- app_assoc.
      * apply select_app; [done|]. simpl.
        rewrite <- app_assoc. simpl. by rewrite py_getitem_middle.
    + rewrite decide_False by (unfold meets_min_size; lia).
      by apply IH.
Qed.

Lemma filter_imgs_select min_size infos :
  select infos (filter_loop min_size 0 infos [])
  = Ok (filter (meets_min_size min_size) infos).
Proof. exact (filter_loop_select min_size infos [] [] [] eq_refl). Qed.

(** C6. A dataset constructed with [test_mode = False] retains exactly the
    loaded records whose width and height both reach 32, in the order in
    which they were loaded; so [min(width, height) >= 32] for every
    retained record. *)
Theorem init_retains_large_images_in_order
    (cls : Class) (fs : Files) (ann : string) (pl : Pipeline)
    (classes : classes_arg) (root prefix : option string) (feg : bool)
    (self : CustomDataset) (warned : list string) :
  __init__ cls fs ann pl classes root prefix false feg = (Ok self, warned) ->
  exists loaded retained,
    load_annotations cls (ann_file self) = Some loaded /\
    data_infos self = Some retained /\
    retained = filter (meets_min_size 32) loaded /\
    retained `sublist_of` loaded /\
    Forall (fun d => 32 <= Z.min (width (img_info d)) (height (img_info d)))
           retained.
Proof.
  unfold __init__. destruct (get_classes cls fs classes) as [names|e]; [|done].
  cbn [negb]. cbv iota. unfold _filter_imgs. cbn [data_infos filter_empty_gt].
  match goal with
  | |- context [load_annotations cls ?a] =>
      set (path := a); destruct (load_annotations cls path) as [loaded|] eqn:Hload
  end; [|done].
  rewrite filter_imgs_select. intros [= <- _].
  exists loaded, (filter (meets_min_size 32) loaded). cbn.
  repeat split; try done.
  - apply sublist_filter.
  - apply Forall_forall. intros d [[Hw Hh] _]%list_elem_of_filter. lia.
Qed.

(** C10. Constructing the class as written with [test_mode = False] never
    yields a dataset: [load_annotations] returns [None], and once the
    [classes] argument has been resolved the size filter raises on
    iterating over it. *)
Theorem base_class_init_fails
    (fs : Files) (ann : string) (pl : Pipeline) (classes : classes_arg)
    (root prefix : option string) (feg : bool) :
  exists e warned,
    __init__ base_class fs ann pl classes root prefix false feg
    = (Raise e, warned) /\
    (is_ok (get_classes base_class fs classes) = true -> e = not_iterable).
Proof.
  unfold __init__.
  destruct (get_classes base_class fs classes) as [names|e].
  - exists not_iterable, (if feg then [empty_gt_warning] else []).
    split; [|done]. done.
  - exists e, []. split; [done|]. discriminate.
Qed.

(** C5 on the code.  A string argument reaches [mmcv.list_from_file], but
    the module never binds the name [mmcv]: the call raises [NameError]
    whatever the path and whatever the file holds. *)
Theorem get_classes_str_raises_NameError
    (cls : Class) (fs : Files) (path : string) :
  get_classes cls fs (ClassesStr path) = Raise (NameError "mmcv").
Proof. reflexivity. Qed.

(** The other three cases of [get_classes]. *)
Lemma get_classes_None cls fs :
  get_classes cls fs ClassesNone = Ok (cls_CLASSES cls).
Proof. reflexivity. Qed.

Lemma get_classes_sequence cls fs names :
  get_classes cls fs (ClassesList names) = Ok (NamesList names) /\
  get_classes cls fs (ClassesTuple names) = Ok (NamesTuple names).
Proof. split; reflexivity. Qed.

Lemma get_classes_other cls fs type_name :
  exists msg, get_classes cls fs (ClassesOther type_name) = Raise (ValueError msg).
Proof. eexists. reflexivity. Qed.

(** *** Retrieval *)

Lemma set_data_infos_id self infos :
  data_infos self = Some infos -> set_data_infos self (Some infos) = self.
Proof. destruct self; simpl; by intros ->. Qed.

Lemma store_eta s :
  {| dataset := dataset s; draws := draws s; runs := runs s |} = s.
Proof. by destruct s. Qed.

(** [prepare_img] at a position inside the list. *)
Lemma prepare_img_in_range s idx infos d :
  data_infos (dataset s) = Some infos ->
  0 <= idx < Z.of_nat (length infos) ->
  infos !! Z.to_nat idx = Some d ->
  let self := dataset s in
  let prepared := pre_pipeline self d in
  prepare_img s idx
  = ((pipeline self prepared).2,
     {| dataset :=
          set_data_infos self (Some (<[Z.to_nat idx := (pipeline self prepared).1]> infos));
        draws := draws s;
        runs := runs s ++ [(Z.to_nat idx, prepared)] |}).
Proof.
  intros Hinfos Hidx Hd self prepared. subst self prepared.
  unfold prepare_img. rewrite Hinfos, (py_index_in_range _ _ Hidx), Hd.
  by destruct (pipeline _ _).
Qed.

(** C7. In test mode, [get(i)] for an index inside the list runs the
    pipeline once, on the record stored at [i], and returns what the
    pipeline returns, whatever that is; no draw is taken. *)
Theorem getitem_test_mode_single_run
    (fuel : nat) (s : Store) (idx : Z) (infos : list DataInfo) :
  test_mode (dataset s) = true ->
  data_infos (dataset s) = Some infos ->
  0 <= idx < Z.of_nat (length infos) ->
  exists d,
    infos !! Z.to_nat idx = Some d /\
    let self := dataset s in
    let prepared := pre_pipeline self d in
    __getitem__ fuel s idx
    = Some ((pipeline self prepared).2,
            {| dataset :=
                 set_data_infos self
                   (Some (<[Z.to_nat idx := (pipeline self prepared).1]> infos));
               draws := draws s;
               runs := runs s ++ [(Z.to_nat idx, prepared)] |}).
Proof.
  intros Htest Hinfos Hidx.
  destruct (lookup_lt_is_Some_2 infos (Z.to_nat idx)) as [d Hd]; [lia|].
  exists d. split; [done|]. intros self prepared.
  unfold __getitem__. rewrite Htest.
  by rewrite (prepare_img_in_range s idx infos d Hinfos Hidx Hd).
Qed.

(** *** Retrieval writes to the stored objects *)

(** A store of objects written out. *)
Local Abbreviation objects_of self objects ds rs sl :=
  {| Objects.base := {| dataset := set_data_infos self (Some objects);
                        draws := ds; runs := rs |};
     Objects.slots := sl |}.







(** A list each position of which holds an object of its own is retrieved
    from as [prepare_img] and [__getitem__] above have it. *)
Lemma py_index_length {A B} (l : list A) (l' : list B) (i : Z) :
  length l = length l' -> py_index l i = py_index l' i.
Proof. unfold py_index. by intros ->. Qed.

Lemma py_index_lt {A} (l : list A) (i : Z) (p : nat) :
  py_index l i = Ok p -> (p < length l)%nat.
Proof.
  unfold py_index.
  destruct (Z.leb_spec 0 i), (Z.ltb_spec i (Z.of_nat (length l))); simpl;
    try (intros [= <-]; lia);
    destruct (Z.leb_spec (- Z.of_nat (length l)) i), (Z.ltb_spec i 0); simpl;
    try done; intros [= <-]; lia.
Qed.

Lemma own_objects_prepare_img s idx :
  Objects.prepare_img (Objects.own_objects s) idx
  = ((prepare_img s idx).1, Objects.own_objects (prepare_img s idx).2).
Proof.
  unfold Objects.prepare_img, prepare_img, Objects.own_objects.
  cbn [Objects.base Objects.slots].
  destruct (data_infos (dataset s)) as [infos|] eqn:Hinfos;
    [|cbn; by rewrite Hinfos].
  rewrite (py_index_length (seq 0 (length infos)) infos idx)
    by apply length_seq.
  destruct (py_index infos idx) as [p|e] eqn:Hp; [|cbn; by rewrite Hinfos].
  apply py_index_lt in Hp. rewrite lookup_seq_lt by done. simpl.
  destruct (infos !! p) as [d|]; [|cbn; by rewrite Hinfos].
  destruct (pipeline _ _) as [d' o]. cbn. by rewrite length_insert.
Qed.

Lemma own_objects_retry fuel : forall s idx,
  Objects.retry fuel (Objects.own_objects s) idx
  = (fun r => (r.1, Objects.own_objects r.2)) <$> retry fuel s idx.
Proof.
  induction fuel as [|fuel IH]; intros s idx; [done|].
  cbn [Objects.retry retry]. rewrite own_objects_prepare_img.
  destruct (prepare_img s idx) as [[data|e] s1]; [|done]. cbn [fst snd].
  destruct data; try done.
  assert (Hslots : Objects.slots (Objects.own_objects s1)
                   = match data_infos (dataset s1) with
                     | Some infos => seq 0 (length infos)
                     | None => []
                     end) by done.
  unfold Objects._rand_another, _rand_another, Objects.__len__, __len__.
  rewrite Hslots. change (Objects.base (Objects.own_objects s1)) with s1.
  destruct (data_infos (dataset s1)) as [infos|] eqn:Hinfos; [|done].
  rewrite length_seq. destruct (_ <=? 0); [done|].
  destruct (draws s1) as [|d rest]; [done|].
  rewrite <- IH. unfold Objects.own_objects. cbn [dataset]. by rewrite Hinfos.
Qed.

Lemma own_objects_getitem fuel s idx :
  Objects.__getitem__ fuel (Objects.own_objects s) idx
  = (fun r => (r.1, Objects.own_objects r.2)) <$> __getitem__ fuel s idx.
Proof.
  unfold Objects.__getitem__, __getitem__. cbn [Objects.own_objects Objects.base].
  destruct (test_mode (dataset s)).
  - cbn. by rewrite own_objects_prepare_img.
  - apply own_objects_retry.
Qed.

(** *** The retry loop *)

(** The same on a store written out. *)
Lemma prepare_img_at self infos ds rs idx d :
  0 <= idx < Z.of_nat (length infos) ->
  infos !! Z.to_nat idx = Some d ->
  prepare_img {| dataset := set_data_infos self (Some infos);
                 draws := ds; runs := rs |} idx
  = ((pipeline self (pre_pipeline self d)).2,
     {| dataset :=
          set_data_infos self
            (Some (<[Z.to_nat idx := (pipeline self (pre_pipeline self d)).1]> infos));
        draws := ds;
        runs := rs ++ [(Z.to_nat idx, pre_pipeline self d)] |}).
Proof.
  intros Hidx Hd.
  exact (prepare_img_in_range
           {| dataset := set_data_infos self (Some infos); draws := ds; runs := rs |}
           idx infos d eq_refl Hidx Hd).
Qed.

Section Retry.

Variable self : CustomDataset.
Variable Invalid : DataInfo -> Prop.
Variables (j : Z) (rest : list Z).

(** Whatever state the record is in, the pipeline rejects it and leaves it
    in such a state. *)
Hypothesis invalid_stays :
  forall r, Invalid r ->
    (pipeline self (pre_pipeline self r)).2 = Ok PyNone /\
    Invalid (pipeline self (pre_pipeline self r)).1.

Lemma retry_reaches_valid (k : nat) : forall fuel infos r runs0,
  (k + 2 <= fuel)%nat ->
  infos !! 0%nat = Some r ->
  Invalid r ->
  (forall p d, p <> 0%nat -> infos !! p = Some d -> accepted self d) ->
  0 < j < Z.of_nat (length infos) ->
  exists data s',
    retry fuel
      {| dataset := set_data_infos self (Some infos);
         draws := replicate k 0 ++ j :: rest;
         runs := runs0 |} 0
    = Some (Ok data, s') /\ data <> PyNone /\ draws s' = rest.
Proof.
  induction k as [|k IH]; intros fuel infos r runs0 Hfuel Hr Hinv Hothers Hj.
  - destruct fuel as [|[|fuel]]; [lia | lia |].
    destruct (invalid_stays r Hinv) as [Hnone _].
    cbn [retry]. rewrite (prepare_img_at self infos _ _ 0 r ltac:(lia) Hr).
    rewrite Hnone. unfold _rand_another, __len__.
    cbn [dataset data_infos set_data_infos draws replicate app].
    rewrite length_insert.
    destruct (Z.leb_spec (Z.of_nat (length infos)) 0) as [|_]; [lia|].
    destruct (lookup_lt_is_Some_2 infos (Z.to_nat j)) as [d Hd]; [lia|].
    rewrite (prepare_img_at self _ _ _ j d).
    + destruct (Hothers (Z.to_nat j) d ltac:(lia) Hd) as (data & Hdata & Hne).
      rewrite Hdata.
      destruct data; [done | ..];
        (eexists _, _; split; [reflexivity | split; [done | reflexivity]]).
    + rewrite length_insert. lia.
    + rewrite list_lookup_insert_ne; [done | lia].
  - destruct fuel as [|fuel]; [lia|].
    destruct (invalid_stays r Hinv) as [Hnone Hinv'].
    cbn [retry]. rewrite (prepare_img_at self infos _ _ 0 r ltac:(lia) Hr).
    rewrite Hnone. unfold _rand_another, __len__.
    cbn [dataset data_infos set_data_infos draws replicate app].
    rewrite length_insert.
    destruct (Z.leb_spec (Z.of_nat (length infos)) 0) as [|_]; [lia|].
    apply (IH fuel _ (pipeline self (pre_pipeline self r)).1).
    + lia.
    + apply list_lookup_insert_eq. lia.
    + done.
    + intros p d Hp Hd. apply (Hothers p d Hp).
      by rewrite list_lookup_insert_ne in Hd by (simpl; lia).
    + rewrite length_insert. lia.
Qed.

End Retry.

(** C9. In training mode, on a dataset of at least two records whose
    pipeline rejects the record at index 0 every time and accepts every
    other record, [get(0)] returns: once a draw other than 0 comes up,
    after any number [k] of draws of 0, it returns the sample the pipeline
    makes of that record, which is not [None]. *)
Theorem getitem_retries_until_valid
    (s : Store) (infos : list DataInfo) (r0 : DataInfo)
    (Invalid : DataInfo -> Prop) (k : nat) (j : Z) (rest : list Z)
    (fuel : nat) :
  let self := dataset s in
  test_mode self = false ->
  data_infos self = Some infos ->
  (2 <= length infos)%nat ->
  infos !! 0%nat = Some r0 ->
  Invalid r0 ->
  (forall r, Invalid r ->
     (pipeline self (pre_pipeline self r)).2 = Ok PyNone /\
     Invalid (pipeline self (pre_pipeline self r)).1) ->
  (forall p d, p <> 0%nat -> infos !! p = Some d -> accepted self d) ->
  draws s = replicate k 0 ++ j :: rest ->
  0 < j < Z.of_nat (length infos) ->
  (k + 2 <= fuel)%nat ->
  exists data s',
    __getitem__ fuel s 0 = Some (Ok data, s') /\
    data <> PyNone /\
    draws s' = rest.
Proof.
  intros self Htrain Hinfos Hlen Hr0 Hinv Hstays Hothers Hdraws Hj Hfuel.
  unfold __getitem__. fold self. rewrite Htrain.
  rewrite <- (store_eta s). fold self. rewrite Hdraws.
  rewrite <- (set_data_infos_id self infos Hinfos).
  by apply (retry_reaches_valid self Invalid j rest Hstays k fuel infos r0).
Qed.

(** *** The statements at work *)

Lemma init_retains_large_images_in_order_witness :
  exists loaded retained,
    load_annotations coco_like (ann_file built) = Some loaded /\
    data_infos built = Some retained /\
    retained = filter (meets_min_size 32) loaded /\
    retained `sublist_of` loaded /\
    Forall (fun d => 32 <= Z.min (width (img_info d)) (height (img_info d)))
           retained.
Proof.
  apply (init_retains_large_images_in_order coco_like no_files "ann.json"
           pipeline_ex ClassesNone None (Some "val2017/") true built
           [empty_gt_warning]).
  vm_compute. reflexivity.
Defined.

Lemma getitem_test_mode_single_run_witness :
  exists s', __getitem__ 0 test_store 0 = Some (Ok PyNone, s') /\
             draws s' = draws test_store /\ length (runs s') = 1%nat.
Proof.
  destruct (getitem_test_mode_single_run 0 test_store 0 infos_ex)
    as (d & Hd & Hget).
  - reflexivity.
  - reflexivity.
  - simpl. lia.
  - injection Hd as <-. eexists. split; [exact Hget|]. split; reflexivity.
Defined.



(** When two positions hold one object, retrieving the one changes what
    the other reads. *)
Lemma shared_object_changes_at_both_positions :
  exists out s',
    Objects.__getitem__ 0 Objects.shared_objects 0 = Some (out, s') /\
    Objects.read s' 1 = Objects.read s' 0 /\
    Objects.read s' 1 <> Objects.read Objects.shared_objects 1.
Proof.
  eexists _, _. split; [reflexivity|]. split; [reflexivity | discriminate].
Qed.

Lemma getitem_retries_until_valid_witness :
  exists data s',
    __getitem__ 4 train_store 0 = Some (Ok data, s') /\
    data <> PyNone /\
    draws s' = [1].
Proof.
  apply (getitem_retries_until_valid train_store infos_ex
           (record 640 480 "empty.jpg")
           (fun r => filename (img_info r) = "empty.jpg") 2 2 [1] 4).
  - reflexivity.
  - reflexivity.
  - simpl. lia.
  - reflexivity.
  - reflexivity.
  - intros r Hr. simpl. unfold pipeline_ex. simpl. rewrite Hr. split; reflexivity.
  - intros p d Hp Hd. destruct p as [|[|[|p]]]; simpl in Hd;
      [done | injection Hd as <- | injection Hd as <- | done];
      (eexists; split; [reflexivity | discriminate]).
  - reflexivity.
  - simpl. lia.
  - lia.
Defined.

End CustomDatasetFacts.

(** * Further properties of the evaluation hook *)

Module EvalHookMore.
Import EvalHook EvalHookFacts.

Local Arguments py_float : simpl never.

Section More.

Variable flatten_results_dict : dict -> dict.

Local Abbreviation do_eval := (_do_eval flatten_results_dict).

(** The world once the callback has been invoked. *)
Local Abbreviation called w :=
  {| calls := S (calls w); storage := storage w; barriers := barriers w |}.

(** Every way an evaluation pass can go. *)
Lemma do_eval_cases self runner w :
  do_eval self runner w
  = match _func self with
    | None => (Raise (AttributeError "_func"), w)
    | Some f =>
        match f (calls w) with
        | Raise e => (Raise e, called w)
        | Ok results =>
            if truthy results then
              match results with
              | PyDict d =>
                  match (check_floats (flatten_results_dict d) (called w)).1 with
                  | Raise e => (Raise e, called w)
                  | Ok _ =>
                      if bool_decide
                           ("smoothing_hint" ∈ dict_keys (flatten_results_dict d))
                      then (Raise (TypeError
                              "got multiple values for keyword argument 'smoothing_hint'"),
                            called w)
                      else (Ok tt,
                            {| calls := S (calls w);
                               storage := storage w ++
                                 [{| put_kwargs := flatten_results_dict d;
                                     put_smoothing_hint := false |}];
                               barriers := S (barriers w) |})
                  end
              | _ => (Raise (AssertionError (must_be_dict results)), called w)
              end
            else (Ok tt, {| calls := S (calls w); storage := storage w;
                            barriers := S (barriers w) |})
        end
    end.
Proof.
  unfold _do_eval, bind, call_func, raise.
  destruct (_func self) as [f|]; [|done].
  destruct (f (calls w)) as [results|e]; [|done].
  destruct (truthy results); [|done].
  destruct results as [|z|x|d|r t c]; try done.
  pose proof (check_floats_world (flatten_results_dict d) (called w)) as Hw.
  destruct (check_floats (flatten_results_dict d) (called w)) as [[[]|e] w1];
    simpl in Hw; subst w1; simpl; [|done].
  unfold put_scalars, raise. by case_bool_decide.
Qed.

(** X1. The barrier is entered exactly by the passes that complete: a pass
    that raises, at whatever point, leaves [synchronize] uncalled. *)
Theorem do_eval_barrier_iff_completes
    (self : EvalHook) (runner : Runner) (w : World) :
  barriers (do_eval self runner w).2
  = if is_ok (do_eval self runner w).1 then S (barriers w) else barriers w.
Proof.
  rewrite do_eval_cases.
  destruct (_func self) as [f|]; [|done].
  destruct (f (calls w)) as [results|e]; [|done].
  destruct (truthy results); [|done].
  destruct results as [|z|x|d|r t c]; try done.
  destruct (check_floats _ _).1; [|done]. by case_bool_decide.
Qed.

(** X2. A pass never rewrites what the metrics store already holds: it
    leaves the store as it is or appends one call, with
    [smoothing_hint=False], and it appends only when it completes. *)
Theorem do_eval_appends_at_most_once
    (self : EvalHook) (runner : Runner) (w : World) :
  storage (do_eval self runner w).2 = storage w \/
  exists kwargs,
    storage (do_eval self runner w).2
    = storage w ++ [{| put_kwargs := kwargs; put_smoothing_hint := false |}] /\
    (do_eval self runner w).1 = Ok tt.
Proof.
  rewrite do_eval_cases.
  destruct (_func self) as [f|]; [|by left].
  destruct (f (calls w)) as [results|e]; [|by left].
  destruct (truthy results); [|by left].
  destruct results as [|z|x|d|r t c]; try by left.
  destruct (check_floats _ _).1; [|by left].
  case_bool_decide; [by left|]. right. by eexists.
Qed.

(** X3. When the callback returns something falsy ([None], an empty
    dictionary, zero), the pass publishes nothing and still enters the
    barrier. *)
Theorem do_eval_falsy_result_only_synchronizes
    (self : EvalHook) (f : callback) (runner : Runner) (w : World)
    (results : pyobj) :
  _func self = Some f ->
  f (calls w) = Ok results ->
  truthy results = false ->
  do_eval self runner w
  = (Ok tt, {| calls := S (calls w); storage := storage w;
               barriers := S (barriers w) |}).
Proof. intros Hf Hres Ht. by rewrite do_eval_cases, Hf, Hres, Ht. Qed.

(** X4. When the callback returns something truthy that is not a
    dictionary, the pass stops at the assertion: an [AssertionError] whose
    message is formatted from the value returned, reading
    [Eval function must return a dict. Got value instead.]; nothing is
    published and the barrier is not entered. *)
Theorem do_eval_non_dict_result_fails_assertion
    (self : EvalHook) (f : callback) (runner : Runner) (w : World)
    (results : pyobj) :
  _func self = Some f ->
  f (calls w) = Ok results ->
  truthy results = true ->
  isinstance_dict results = false ->
  exists msg,
    do_eval self runner w = (Raise (AssertionError msg), called w) /\
    args msg = [ArgObj results] /\
    forall str_of : pyobj -> string,
      render str_of msg
      = Some ("Eval function must return a dict. Got " +:+ str_of results
              +:+ " instead.").
Proof.
  intros Hf Hres Ht Hd. exists (must_be_dict results).
  split; [|split; [reflexivity | intros; apply render_must_be_dict]].
  rewrite do_eval_cases, Hf, Hres, Ht. by destruct results.
Qed.

(** X5. Of several flattened values that [float] rejects, the error names
    the first in the iteration order of the flattened dictionary: its
    message is formatted from that key and that value and reads
    [... Got 'key: value' instead.]. *)
Theorem do_eval_reports_first_offender
    (self : EvalHook) (f : callback) (runner : Runner) (w : World)
    (d before after : dict) (k : string) (v : pyobj) :
  _func self = Some f ->
  f (calls w) = Ok (PyDict d) ->
  d <> [] ->
  flatten_results_dict d = before ++ (k, v) :: after ->
  Forall (fun kv => is_Some (py_float kv.2)) before ->
  py_float v = None ->
  exists msg,
    do_eval self runner w = (Raise (ValueError msg), called w) /\
    args msg = [ArgStr k; ArgObj v] /\
    forall str_of : pyobj -> string,
      render str_of msg
      = Some ("[EvalHook] eval_function should return a nested dict of float. Got '"
              +:+ k +:+ ": " +:+ str_of v +:+ "' instead.").
Proof.
  intros Hf Hres Hne Hitems Hbefore Hv. exists (must_be_float k v).
  split; [|split; [reflexivity | intros; apply render_must_be_float]].
  rewrite do_eval_cases, Hf, Hres. destruct d as [|kv d']; [done|].
  change (truthy (PyDict (kv :: d'))) with true. cbv iota. rewrite Hitems.
  assert (Hrun : forall w1, check_floats (before ++ (k, v) :: after) w1
                            = (Raise (ValueError (must_be_float k v)), w1)).
  { clear Hitems. intros w1.
    induction Hbefore as [|[k0 v0] rest [v' Hv0] _ IH]; simpl.
    - by rewrite Hv.
    - simpl in Hv0. rewrite Hv0. exact IH. }
  by rewrite Hrun.
Qed.

(** X6. A flattened key named [smoothing_hint] collides with the keyword
    that the hook passes itself: although every value is a valid float, the
    call of [put_scalars] raises [TypeError], nothing is published and the
    barrier is not entered. *)
Theorem do_eval_keyword_collision
    (self : EvalHook) (f : callback) (runner : Runner) (w : World) (d : dict) :
  _func self = Some f ->
  f (calls w) = Ok (PyDict d) ->
  d <> [] ->
  Forall (fun kv => is_Some (py_float kv.2)) (flatten_results_dict d) ->
  "smoothing_hint" ∈ dict_keys (flatten_results_dict d) ->
  exists msg, do_eval self runner w = (Raise (TypeError msg), called w).
Proof.
  intros Hf Hres Hne Hall Hkey.
  rewrite do_eval_cases, Hf, Hres. destruct d as [|kv d']; [done|].
  change (truthy (PyDict (kv :: d'))) with true. cbv iota.
  rewrite (check_floats_ok _ _ Hall). simpl.
  rewrite bool_decide_eq_true_2 by done. by eexists.
Qed.

(** X7. On a hook constructed with [by_epoch = True] that sees its runner as
    [self.runner], an "after a validation epoch" event invokes the callback
    if and only if [period > 0], [(epoch + 1) % period == 0] and
    [epoch + 1 != max_epoch]. *)
Theorem after_val_epoch_invokes_iff
    (hook : Hook) (f : callback) (period : Z) (runner : Runner) (w : World) :
  has_runner hook = true ->
  (0 < invocations w
         (after_val_epoch flatten_results_dict (__init__ hook f true period)
            runner w).2)%nat
  <-> (0 < period /\ (epoch runner + 1) mod period = 0
       /\ epoch runner + 1 <> max_epoch runner).
Proof.
  intros Hr. unfold invocations, after_val_epoch. simpl.
  unfold self_runner, bind, ret. simpl. rewrite Hr. simpl.
  destruct (Z.ltb_spec 0 period) as [Hp|Hp]; simpl; [|split; lia].
  destruct (Z.eqb_spec ((epoch runner + 1) mod period) 0) as [Hm|Hm]; simpl;
    [|split; [lia | tauto]].
  destruct (Z.eqb_spec (epoch runner + 1) (max_epoch runner)) as [Hx|Hx]; simpl;
    [split; [lia | tauto]|].
  rewrite (do_eval_invocations flatten_results_dict
             (__init__ hook f true period) f runner w eq_refl).
  split; [tauto | lia].
Qed.

(** X8. The two periodic events exclude each other: whatever the hook, at
    least one of them returns at once, leaving the world as it is and
    reading nothing of the runner. *)
Theorem periodic_events_exclusive
    (self : EvalHook) (r1 r2 : Runner) (w1 w2 : World) :
  after_val_iter flatten_results_dict self r1 w1 = (Ok tt, w1) \/
  after_val_epoch flatten_results_dict self r2 w2 = (Ok tt, w2).
Proof.
  unfold after_val_iter, after_val_epoch.
  destruct (by_epoch self); [by left | by right].
Qed.

(** X9. A period of zero or less switches the periodic evaluation off: both
    events return normally and leave the world untouched, the remainder
    being never computed. *)
Theorem non_positive_period_never_evaluates
    (self : EvalHook) (runner : Runner) (w : World) :
  has_runner (base self) = true ->
  _period self <= 0 ->
  after_val_iter flatten_results_dict self runner w = (Ok tt, w) /\
  after_val_epoch flatten_results_dict self runner w = (Ok tt, w).
Proof.
  intros Hr Hp. unfold after_val_iter, after_val_epoch, self_runner, bind, ret.
  rewrite Hr. destruct (Z.ltb_spec 0 (_period self)); [lia|].
  by destruct (by_epoch self).
Qed.

(** X10. By iteration, the last iteration is evaluated once: when
    [iter + 1 == max_iter], "after a validation iteration" leaves the
    evaluation to "after run completes", which invokes the callback exactly
    once. *)
Theorem last_iteration_evaluated_once
    (self : EvalHook) (f : callback) (runner : Runner) (w : World) :
  by_epoch self = false ->
  has_runner (base self) = true ->
  _func self = Some f ->
  iter runner + 1 = max_iter runner ->
  after_val_iter flatten_results_dict self runner w = (Ok tt, w) /\
  calls (after_run flatten_results_dict self runner w).2 = S (calls w).
Proof.
  intros Hb Hr Hf Hlast. split.
  - unfold after_val_iter, self_runner, bind, ret. rewrite Hb, Hr. simpl.
    destruct (_ && _); [|done].
    by rewrite (proj2 (Z.eqb_eq _ _) Hlast).
  - apply (after_run_by_iter_evaluates flatten_results_dict self f); [done..|lia].
Qed.

(** X11. When the run ends before the last iteration (a failed training),
    "after run completes" on a by-iteration hook evaluates nothing, enters
    no barrier, and still releases the callback. *)
Theorem after_run_before_last_iteration
    (self : EvalHook) (f : callback) (runner : Runner) (w : World) :
  by_epoch self = false ->
  has_runner (base self) = true ->
  _func self = Some f ->
  iter runner + 1 < max_iter runner ->
  after_run flatten_results_dict self runner w
  = (Ok {| base := base self; by_epoch := false;
           _period := _period self; _func := None |}, w).
Proof.
  intros Hb Hr Hf Hlt. unfold after_run, self_runner, del_func, bind, ret.
  rewrite Hb, Hr, Hf.
  by destruct (Z.leb_spec (max_iter runner) (iter runner + 1)); [lia|].
Qed.

(** X12. Once "after run completes" has returned, the callback is gone: a
    later evaluation pass on the hook it leaves raises [AttributeError]
    without touching the world, and so does a second "after run
    completes" on a runner the hook can read. *)
Theorem after_run_releases_callback
    (self self' : EvalHook) (runner : Runner) (w w' : World) :
  after_run flatten_results_dict self runner w = (Ok self', w') ->
  _func self' = None /\
  (forall r2 w2, do_eval self' r2 w2 = (Raise (AttributeError "_func"), w2)) /\
  (forall r2 w2, has_runner (base self') = true ->
                 has_trainer (base self') = true ->
                 max_epoch r2 <= epoch r2 + 1 ->
                 max_iter r2 <= iter r2 + 1 ->
                 after_run flatten_results_dict self' r2 w2
                 = (Raise (AttributeError "_func"), w2)).
Proof.
  intros Hrun.
  assert (Hself' : self' = {| base := base self; by_epoch := by_epoch self;
                             _period := _period self; _func := None |}).
  { revert Hrun. unfold after_run, del_func, bind, ret.
    match goal with |- context [match ?m w with _ => _ end] => destruct (m w) as [[[]|e] w1] end;
      [|done].
    destruct (_func self); [|done]. by intros [= <- _]. }
  subst self'. split; [done|]. split.
  - intros r2 w2. by rewrite do_eval_cases.
  - intros r2 w2 Hr Ht He Hi. simpl in Hr, Ht.
    unfold after_run, self_runner, self_trainer, bind, ret. simpl.
    rewrite Hr, Ht. apply Z.leb_le in He, Hi. rewrite He, Hi.
    destruct (by_epoch self); by rewrite do_eval_cases.
Qed.

End More.

Lemma do_eval_falsy_result_only_synchronizes_witness :
  _do_eval (flatten_nested "/")
    (__init__ bound_both (fun _ => Ok PyNone) true 2) runner10 world0
  = (Ok tt, {| calls := 1; storage := []; barriers := 1 |}).
Proof.
  apply (do_eval_falsy_result_only_synchronizes (flatten_nested "/")
           (__init__ bound_both (fun _ => Ok PyNone) true 2)
           (fun _ => Ok PyNone) runner10 world0 PyNone).
  - reflexivity.
  - reflexivity.
  - reflexivity.
Defined.

Lemma do_eval_non_dict_result_fails_assertion_witness :
  exists msg,
    _do_eval (flatten_nested "/")
      (__init__ bound_both (fun _ => Ok (PyInt 5)) true 2) runner10 world0
    = (Raise (AssertionError msg),
       {| calls := 1; storage := []; barriers := 0 |}) /\
    args msg = [ArgObj (PyInt 5)] /\
    forall str_of : pyobj -> string,
      render str_of msg
      = Some ("Eval function must return a dict. Got " +:+ str_of (PyInt 5)
              +:+ " instead.").
Proof.
  apply (do_eval_non_dict_result_fails_assertion (flatten_nested "/")
           (__init__ bound_both (fun _ => Ok (PyInt 5)) true 2)
           (fun _ => Ok (PyInt 5)) runner10 world0 (PyInt 5)).
  - reflexivity.
  - reflexivity.
  - reflexivity.
  - reflexivity.
Defined.

Lemma do_eval_reports_first_offender_witness :
  exists msg,
    _do_eval (flatten_nested "/")
      (__init__ bound_both (fun _ => Ok (PyDict two_bad)) true 2) runner10 world0
    = (Raise (ValueError msg),
       {| calls := 1; storage := []; barriers := 0 |}) /\
    args msg = [ArgStr "a"; ArgObj PyNone] /\
    forall str_of : pyobj -> string,
      render str_of msg
      = Some ("[EvalHook] eval_function should return a nested dict of float. Got '"
              +:+ "a" +:+ ": " +:+ str_of PyNone +:+ "' instead.").
Proof.
  apply (do_eval_reports_first_offender (flatten_nested "/")
           (__init__ bound_both (fun _ => Ok (PyDict two_bad)) true 2)
           (fun _ => Ok (PyDict two_bad)) runner10 world0 two_bad
           [("loss", PyFloat half)] [("b", PyObject "x" true None)]).
  - reflexivity.
  - reflexivity.
  - discriminate.
  - reflexivity.
  - repeat constructor. eexists. reflexivity.
  - reflexivity.
Defined.

Lemma do_eval_keyword_collision_witness :
  exists msg,
    _do_eval (flatten_nested "/")
      (__init__ bound_both (fun _ => Ok (PyDict hint_metrics)) true 2)
      runner10 world0
    = (Raise (TypeError msg), {| calls := 1; storage := []; barriers := 0 |}).
Proof.
  apply (do_eval_keyword_collision (flatten_nested "/")
           (__init__ bound_both (fun _ => Ok (PyDict hint_metrics)) true 2)
           (fun _ => Ok (PyDict hint_metrics)) runner10 world0 hint_metrics).
  - reflexivity.
  - reflexivity.
  - discriminate.
  - vm_compute. repeat constructor. eexists. reflexivity.
  - vm_compute. apply list_elem_of_here.
Defined.

Lemma after_val_epoch_invokes_iff_witness :
  (0 < invocations world0
         (after_val_epoch (flatten_nested "/")
            (__init__ bound_runner_only (fun _ => Ok (PyDict metrics)) true 2)
            {| iter := 0; max_iter := 0; epoch := 3; max_epoch := 10 |}
            world0).2)%nat.
Proof.
  apply (after_val_epoch_invokes_iff (flatten_nested "/") bound_runner_only
           (fun _ => Ok (PyDict metrics)) 2
           {| iter := 0; max_iter := 0; epoch := 3; max_epoch := 10 |} world0).
  - reflexivity.
  - simpl. split; [lia | split; [reflexivity | lia]].
Defined.

Lemma non_positive_period_never_evaluates_witness :
  after_val_iter (flatten_nested "/")
    (__init__ bound_runner_only (fun _ => Ok (PyDict metrics)) false 0)
    runner10 world0 = (Ok tt, world0) /\
  after_val_epoch (flatten_nested "/")
    (__init__ bound_runner_only (fun _ => Ok (PyDict metrics)) false 0)
    runner10 world0 = (Ok tt, world0).
Proof.
  apply (non_positive_period_never_evaluates (flatten_nested "/")
           (__init__ bound_runner_only (fun _ => Ok (PyDict metrics)) false 0)
           runner10 world0).
  - reflexivity.
  - simpl. lia.
Defined.

Lemma last_iteration_evaluated_once_witness :
  after_val_iter (flatten_nested "/")
    (__init__ bound_runner_only (fun _ => Ok (PyDict metrics)) false 5)
    {| iter := 99; max_iter := 100; epoch := 0; max_epoch := 1 |} world0
  = (Ok tt, world0) /\
  calls (after_run (flatten_nested "/")
           (__init__ bound_runner_only (fun _ => Ok (PyDict metrics)) false 5)
           {| iter := 99; max_iter := 100; epoch := 0; max_epoch := 1 |}
           world0).2 = 1%nat.
Proof.
  apply (last_iteration_evaluated_once (flatten_nested "/")
           (__init__ bound_runner_only (fun _ => Ok (PyDict metrics)) false 5)
           (fun _ => Ok (PyDict metrics))
           {| iter := 99; max_iter := 100; epoch := 0; max_epoch := 1 |} world0).
  - reflexivity.
  - reflexivity.
  - reflexivity.
  - reflexivity.
Defined.

Lemma after_run_before_last_iteration_witness :
  after_run (flatten_nested "/")
    (__init__ bound_runner_only (fun _ => Ok (PyDict metrics)) false 5)
    {| iter := 41; max_iter := 100; epoch := 0; max_epoch := 1 |} world0
  = (Ok {| base := bound_runner_only; by_epoch := false;
           _period := 5; _func := None |}, world0).
Proof.
  apply (after_run_before_last_iteration (flatten_nested "/")
           (__init__ bound_runner_only (fun _ => Ok (PyDict metrics)) false 5)
           (fun _ => Ok (PyDict metrics))
           {| iter := 41; max_iter := 100; epoch := 0; max_epoch := 1 |} world0).
  - reflexivity.
  - reflexivity.
  - reflexivity.
  - simpl. lia.
Defined.

Lemma after_run_releases_callback_witness :
  _do_eval (flatten_nested "/")
    {| base := bound_runner_only; by_epoch := false;
       _period := 5; _func := None |} runner10 world0
  = (Raise (AttributeError "_func"), world0).
Proof.
  destruct (after_run_releases_callback (flatten_nested "/")
              (__init__ bound_runner_only (fun _ => Ok (PyDict metrics)) false 5)
              {| base := bound_runner_only; by_epoch := false;
                 _period := 5; _func := None |}
              {| iter := 41; max_iter := 100; epoch := 0; max_epoch := 1 |}
              world0 world0 eq_refl) as (_ & Hpass & _).
  apply Hpass.
Defined.

End EvalHookMore.

(** * Further properties of the dataset base class *)

Module CustomDatasetMore.
Import CustomDataset CustomDatasetFacts.

(** *** Construction *)

(** What a successful construction has done. *)
Lemma init_ok_inv cls fs ann pl classes root prefix tm feg self warned :
  __init__ cls fs ann pl classes root prefix tm feg = (Ok self, warned) ->
  get_classes cls fs classes = Ok (CLASSES self) /\
  ann_file self = resolved_ann_file root ann /\
  img_prefix self = resolved_img_prefix root prefix /\
  test_mode self = tm /\
  filter_empty_gt self = feg /\
  pipeline self = pl /\
  if tm then
    data_infos self = load_annotations cls (resolved_ann_file root ann) /\
    warned = []
  else
    exists loaded,
      load_annotations cls (resolved_ann_file root ann) = Some loaded /\
      data_infos self = Some (filter (meets_min_size 32) loaded) /\
      warned = if feg then [empty_gt_warning] else [].
Proof.
  unfold __init__. destruct (get_classes cls fs classes) as [c|e]; [|done].
  fold (resolved_ann_file root ann). fold (resolved_img_prefix root prefix).
  destruct tm; cbn [negb]; cbv iota.
  - intros [= <- <-]. by repeat split.
  - unfold _filter_imgs. cbn [data_infos filter_empty_gt].
    destruct (load_annotations cls (resolved_ann_file root ann))
      as [loaded|] eqn:Hload; [|done].
    rewrite filter_imgs_select. intros [= <- <-]. cbn.
    repeat split. by exists loaded.
Qed.

(** A construction succeeds once the classes resolve and, outside test
    mode, the loader has returned a list. *)
Lemma init_ok_intro cls fs ann pl classes root prefix tm feg c :
  get_classes cls fs classes = Ok c ->
  (tm = true \/ is_Some (load_annotations cls (resolved_ann_file root ann))) ->
  exists self warned,
    __init__ cls fs ann pl classes root prefix tm feg = (Ok self, warned).
Proof.
  intros Hc Hload. unfold __init__. rewrite Hc.
  fold (resolved_ann_file root ann). fold (resolved_img_prefix root prefix).
  destruct tm; cbn [negb]; cbv iota; [by eexists _, _|].
  destruct Hload as [|[loaded Hload]]; [done|].
  unfold _filter_imgs. cbn [data_infos filter_empty_gt].
  rewrite Hload, filter_imgs_select. by eexists _, _.
Qed.

(** X13. In test mode the constructor filters nothing and warns of
    nothing: once the classes resolve it returns a dataset holding exactly
    what [load_annotations] returned, undersized records included. *)
Theorem init_test_mode_keeps_all
    (cls : Class) (fs : Files) (ann : string) (pl : Pipeline)
    (classes : classes_arg) (root prefix : option string) (feg : bool)
    (c : class_names) :
  get_classes cls fs classes = Ok c ->
  exists self,
    __init__ cls fs ann pl classes root prefix true feg = (Ok self, []) /\
    data_infos self = load_annotations cls (ann_file self) /\
    CLASSES self = c.
Proof.
  intros Hc.
  destruct (init_ok_intro cls fs ann pl classes root prefix true feg c Hc)
    as (self & warned & Hinit); [by left|].
  destruct (init_ok_inv _ _ _ _ _ _ _ _ _ _ _ Hinit)
    as (Hc' & Hann & _ & _ & _ & _ & Hinfos & ->).
  exists self. split; [done|]. split; [by rewrite Hann|]. congruence.
Qed.

(** X14. The class as written can be constructed in test mode, but the
    dataset is unusable: [len] raises [TypeError], and so does every
    retrieval, before the pipeline is run. *)
Theorem base_class_test_mode_unusable
    (fs : Files) (ann : string) (pl : Pipeline) (classes : classes_arg)
    (root prefix : option string) (feg : bool) (c : class_names) :
  get_classes base_class fs classes = Ok c ->
  exists self,
    __init__ base_class fs ann pl classes root prefix true feg = (Ok self, []) /\
    __len__ self = Raise no_len /\
    forall fuel ds rs idx,
      __getitem__ fuel {| dataset := self; draws := ds; runs := rs |} idx
      = Some (Raise not_subscriptable,
              {| dataset := self; draws := ds; runs := rs |}).
Proof.
  intros Hc.
  destruct (init_ok_intro base_class fs ann pl classes root prefix true feg c Hc)
    as (self & warned & Hinit); [by left|].
  destruct (init_ok_inv _ _ _ _ _ _ _ _ _ _ _ Hinit)
    as (_ & _ & _ & Htm & _ & _ & Hinfos & ->).
  exists self. split; [done|]. simpl in Hinfos. split.
  - unfold __len__. by rewrite Hinfos.
  - intros fuel ds rs idx. unfold __getitem__, prepare_img. simpl.
    by rewrite Htm, Hinfos.
Qed.

Lemma isabs_append a b : isabs a = true -> isabs (a +:+ b) = true.
Proof. by destruct a. Qed.

Lemma isabs_join a b : isabs a = true -> isabs (join a b) = true.
Proof.
  intros Ha. unfold join. destruct (isabs b) eqn:Hb; [done|].
  destruct (_ || _); by apply isabs_append.
Qed.

(** X15. Without [data_root] both paths are stored as given, and an
    absolute path is stored as given whatever [data_root] is. *)
Theorem init_keeps_absolute_paths
    (cls : Class) (fs : Files) (ann : string) (pl : Pipeline)
    (classes : classes_arg) (root prefix : option string) (tm feg : bool)
    (self : CustomDataset) (warned : list string) :
  __init__ cls fs ann pl classes root prefix tm feg = (Ok self, warned) ->
  (root = None \/ isabs ann = true -> ann_file self = ann) /\
  (root = None \/ prefix = None \/
   (exists p, prefix = Some p /\ isabs p = true) -> img_prefix self = prefix).
Proof.
  intros Hinit.
  destruct (init_ok_inv _ _ _ _ _ _ _ _ _ _ _ Hinit) as (_ & -> & -> & _).
  unfold resolved_ann_file, resolved_img_prefix. split.
  - intros [->|Habs]; [done|]. destruct root; [|done]. by rewrite Habs.
  - intros [->|[->|(p & -> & Habs)]]; [done | by destruct root |].
    destruct root; [|done]. by rewrite Habs.
Qed.

(** X16. With an absolute [data_root], every path the dataset stores is
    absolute, and [img_prefix] is [None] only if it was given as [None]. *)
Theorem init_absolute_root_gives_absolute_paths
    (cls : Class) (fs : Files) (ann : string) (pl : Pipeline)
    (classes : classes_arg) (root : string) (prefix : option string)
    (tm feg : bool) (self : CustomDataset) (warned : list string) :
  __init__ cls fs ann pl classes (Some root) prefix tm feg = (Ok self, warned) ->
  isabs root = true ->
  isabs (ann_file self) = true /\
  (forall p, img_prefix self = Some p -> isabs p = true) /\
  (img_prefix self = None <-> prefix = None).
Proof.
  intros Hinit Hroot.
  destruct (init_ok_inv _ _ _ _ _ _ _ _ _ _ _ Hinit) as (_ & -> & -> & _).
  unfold resolved_ann_file, resolved_img_prefix. repeat split.
  - destruct (isabs ann) eqn:Ha; [done|]. by apply isabs_join.
  - destruct prefix as [q|]; [|done].
    destruct (isabs q) eqn:Hq; simpl; intros p [= <-]; [done|].
    by apply isabs_join.
  - destruct prefix as [q|]; [|done]. by destruct (isabs q).
  - by intros ->.
Qed.

(** The accumulator of the loop is only ever appended to. *)
Lemma filter_loop_acc m infos : forall i acc,
  filter_loop m i infos acc = acc ++ filter_loop m i infos [].
Proof.
  induction infos as [|d rest IH]; intros i acc; simpl.
  - by rewrite app_nil_r.
  - destruct (m <=? _); [|apply IH].
    rewrite (IH (i + 1) (acc ++ [i])), (IH (i + 1) [i]).
    by rewrite <- app_assoc.
Qed.

Lemma filter_loop_cons m i d rest :
  filter_loop m i (d :: rest) []
  = (if m <=? Z.min (width (img_info d)) (height (img_info d)) then [i] else [])
    ++ filter_loop m (i + 1) rest [].
Proof. simpl. rewrite filter_loop_acc. by destruct (m <=? _). Qed.

Lemma filter_loop_elem m infos : forall i j,
  j ∈ filter_loop m i infos []
  <-> exists p, j = i + Z.of_nat p /\ large_at m infos p.
Proof.
  induction infos as [|d rest IH]; intros i j.
  - simpl. split; [by intros ?%elem_of_nil|]. by intros (p & _ & d & ? & _).
  - rewrite filter_loop_cons, elem_of_app, IH. split.
    + intros [Hhd|(p & -> & d' & Hd' & Hle)].
      * destruct (Z.leb_spec m (Z.min (width (img_info d)) (height (img_info d))));
          [|by apply elem_of_nil in Hhd].
        apply list_elem_of_singleton in Hhd as ->.
        exists 0%nat. split; [lia|]. by exists d.
      * exists (S p). split; [lia|]. by exists d'.
    + intros ([|p] & -> & d' & Hd' & Hle).
      * left. simpl in Hd'. injection Hd' as <-.
        destruct (Z.leb_spec m (Z.min (width (img_info d)) (height (img_info d))));
          [|lia].
        apply list_elem_of_singleton. lia.
      * right. exists p. split; [lia|]. by exists d'.
Qed.

Lemma filter_loop_sorted m infos : forall i,
  StronglySorted Z.lt (filter_loop m i infos []).
Proof.
  induction infos as [|d rest IH]; intros i; [constructor|].
  rewrite filter_loop_cons. destruct (m <=? _); simpl; [|apply IH].
  constructor; [apply IH|].
  apply Forall_forall. intros j (p & -> & _)%filter_loop_elem. lia.
Qed.

(** X17. [_filter_imgs] returns, in ascending order and without
    repetition, exactly the positions of the list whose record reaches
    [min_size] in both dimensions; so every index it returns can be read
    back from the list. *)
Theorem filter_imgs_indices
    (self : CustomDataset) (min_size : Z) (infos : list DataInfo) :
  data_infos self = Some infos ->
  exists valid_inds,
    (_filter_imgs self min_size).1 = Ok valid_inds /\
    StronglySorted Z.lt valid_inds /\
    forall i, i ∈ valid_inds
              <-> 0 <= i < Z.of_nat (length infos)
                  /\ large_at min_size infos (Z.to_nat i).
Proof.
  intros Hinfos. unfold _filter_imgs. rewrite Hinfos.
  exists (filter_loop min_size 0 infos []). split; [done|].
  split; [apply filter_loop_sorted|].
  intros i. rewrite filter_loop_elem. split.
  - intros (p & -> & d & Hd & Hle). rewrite Z.add_0_l, Nat2Z.id.
    apply lookup_lt_Some in Hd as Hlt. split; [lia|]. by exists d.
  - intros (Hi & Hlarge). exists (Z.to_nat i). split; [lia | done].
Qed.

(** X18. [filter_empty_gt] is not honoured: a dataset built with the flag
    set holds the records it would hold with the flag cleared; the flag
    only adds the warning. *)
Theorem filter_empty_gt_only_warns
    (cls : Class) (fs : Files) (ann : string) (pl : Pipeline)
    (classes : classes_arg) (root prefix : option string)
    (self : CustomDataset) (warned : list string) :
  __init__ cls fs ann pl classes root prefix false true = (Ok self, warned) ->
  warned = [empty_gt_warning] /\
  exists self',
    __init__ cls fs ann pl classes root prefix false false = (Ok self', []) /\
    data_infos self' = data_infos self.
Proof.
  intros Hinit.
  destruct (init_ok_inv _ _ _ _ _ _ _ _ _ _ _ Hinit)
    as (Hc & _ & _ & _ & _ & _ & loaded & Hload & Hinfos & ->).
  split; [done|].
  destruct (init_ok_intro cls fs ann pl classes root prefix false false _ Hc)
    as (self' & warned' & Hinit'); [right; by rewrite Hload|].
  destruct (init_ok_inv _ _ _ _ _ _ _ _ _ _ _ Hinit')
    as (_ & _ & _ & _ & _ & _ & loaded' & Hload' & Hinfos' & ->).
  exists self'. split; [done|]. congruence.
Qed.

(** X19. Whenever the classes resolve and [load_annotations] returns a
    list, the constructor returns a dataset in either mode (reading the
    kept indices back never fails), and [len] of it is at most the number
    of records loaded. *)
Theorem init_succeeds_on_loaded_list
    (cls : Class) (fs : Files) (ann : string) (pl : Pipeline)
    (classes : classes_arg) (root prefix : option string) (tm feg : bool)
    (c : class_names) :
  get_classes cls fs classes = Ok c ->
  (forall path, is_Some (load_annotations cls path)) ->
  exists self warned n loaded,
    __init__ cls fs ann pl classes root prefix tm feg = (Ok self, warned) /\
    load_annotations cls (ann_file self) = Some loaded /\
    __len__ self = Ok n /\
    0 <= n <= Z.of_nat (length loaded).
Proof.
  intros Hc Hload.
  destruct (init_ok_intro cls fs ann pl classes root prefix tm feg c Hc)
    as (self & warned & Hinit); [right; apply Hload|].
  destruct (init_ok_inv _ _ _ _ _ _ _ _ _ _ _ Hinit)
    as (_ & Hann & _ & _ & _ & _ & Hrest).
  destruct (Hload (resolved_ann_file root ann)) as [loaded Hloaded].
  unfold __len__. destruct tm.
  - destruct Hrest as [Hinfos _]. rewrite Hloaded in Hinfos.
    exists self, warned, (Z.of_nat (length loaded)), loaded.
    rewrite Hann, Hinfos. repeat split; try done; lia.
  - destruct Hrest as (loaded' & Hloaded' & Hinfos & _).
    assert (loaded' = loaded) as -> by congruence.
    exists self, warned,
      (Z.of_nat (length (filter (meets_min_size 32) loaded))), loaded.
    rewrite Hann, Hinfos. repeat split; try done; [lia|].
    pose proof (length_filter (meets_min_size 32) loaded). lia.
Qed.

(** X20. [get_global_metas] of a constructed dataset exposes, under the
    single key [class], what [get_classes] made of the [classes]
    argument. *)
Theorem global_metas_expose_resolved_classes
    (cls : Class) (fs : Files) (ann : string) (pl : Pipeline)
    (classes : classes_arg) (root prefix : option string) (tm feg : bool)
    (self : CustomDataset) (warned : list string) :
  __init__ cls fs ann pl classes root prefix tm feg = (Ok self, warned) ->
  exists c,
    get_classes cls fs classes = Ok c /\
    get_global_metas self = [("class", c)].
Proof.
  intros Hinit.
  destruct (init_ok_inv _ _ _ _ _ _ _ _ _ _ _ Hinit) as (Hc & _).
  by exists (CLASSES self).
Qed.

(** *** Retrieval *)

Lemma py_index_negative {A} (l : list A) (i : Z) :
  - Z.of_nat (length l) <= i < 0 ->
  py_index l i = Ok (Z.to_nat (i + Z.of_nat (length l))).
Proof.
  intros [H0 H1]. unfold py_index.
  destruct (Z.leb_spec 0 i); [lia|]. simpl.
  destruct (Z.leb_spec (- Z.of_nat (length l)) i); [|lia].
  by destruct (Z.ltb_spec i 0); [|lia].
Qed.

Lemma py_index_out {A} (l : list A) (i : Z) :
  i < - Z.of_nat (length l) \/ Z.of_nat (length l) <= i ->
  py_index l i = Raise IndexError.
Proof.
  intros Hout. unfold py_index.
  destruct (Z.leb_spec 0 i), (Z.ltb_spec i (Z.of_nat (length l))); simpl;
    try lia;
    destruct (Z.leb_spec (- Z.of_nat (length l)) i), (Z.ltb_spec i 0); simpl;
    try lia; done.
Qed.

(** X21. A negative index counts from the end, as on any Python list: in
    test mode, [get(i)] for [-len <= i < 0] prepares the record at position
    [len + i], once. *)
Theorem getitem_negative_index
    (fuel : nat) (s : Store) (idx : Z) (infos : list DataInfo) :
  test_mode (dataset s) = true ->
  data_infos (dataset s) = Some infos ->
  - Z.of_nat (length infos) <= idx < 0 ->
  exists d,
    infos !! Z.to_nat (idx + Z.of_nat (length infos)) = Some d /\
    __getitem__ fuel s idx
    = Some ((pipeline (dataset s) (pre_pipeline (dataset s) d)).2,
            {| dataset :=
                 set_data_infos (dataset s)
                   (Some (<[Z.to_nat (idx + Z.of_nat (length infos)) :=
                              (pipeline (dataset s) (pre_pipeline (dataset s) d)).1]>
                            infos));
               draws := draws s;
               runs := runs s ++ [(Z.to_nat (idx + Z.of_nat (length infos)),
                                   pre_pipeline (dataset s) d)] |}).
Proof.
  intros Htest Hinfos Hidx.
  destruct (lookup_lt_is_Some_2 infos (Z.to_nat (idx + Z.of_nat (length infos))))
    as [d Hd]; [lia|].
  exists d. split; [done|].
  unfold __getitem__, prepare_img.
  rewrite Htest, Hinfos, (py_index_negative _ _ Hidx), Hd.
  by destruct (pipeline _ _).
Qed.

(** X22. An index outside [-len .. len-1] raises [IndexError] in either
    mode: no record is written, the pipeline is not run and no draw is
    taken.  On an empty dataset that is every index. *)
Theorem getitem_out_of_range
    (fuel : nat) (s : Store) (idx : Z) (infos : list DataInfo) :
  data_infos (dataset s) = Some infos ->
  idx < - Z.of_nat (length infos) \/ Z.of_nat (length infos) <= idx ->
  __getitem__ (S fuel) s idx = Some (Raise IndexError, s).
Proof.
  intros Hinfos Hout.
  assert (Hprep : prepare_img s idx = (Raise IndexError, s)).
  { unfold prepare_img. by rewrite Hinfos, (py_index_out _ _ Hout). }
  unfold __getitem__. destruct (test_mode (dataset s)); simpl; by rewrite Hprep.
Qed.

(** A sample comes out of [prepare_img] only through one run of the
    pipeline, and without any draw. *)
Lemma prepare_img_ok s idx data s' :
  prepare_img s idx = (Ok data, s') ->
  draws s' = draws s /\ length (runs s') = S (length (runs s)).
Proof.
  unfold prepare_img.
  destruct (data_infos (dataset s)) as [infos|]; [|done].
  destruct (py_index infos idx) as [p|e]; [|done].
  destruct (infos !! p) as [d|]; [|done].
  destruct (pipeline _ _) as [d' o]. intros [= -> <-]. simpl.
  split; [done|]. rewrite length_app. simpl. lia.
Qed.

(** X23. In training mode a retrieval that returns has made one pipeline
    run more than it has taken draws, and the sample it returns is never
    [None]. *)
Theorem getitem_training_returns_a_sample
    (fuel : nat) (s : Store) (idx : Z) (data : pyobj) (s' : Store) :
  test_mode (dataset s) = false ->
  __getitem__ fuel s idx = Some (Ok data, s') ->
  data <> PyNone /\
  exists used,
    draws s = used ++ draws s' /\
    length (runs s') = (length (runs s) + length used + 1)%nat.
Proof.
  intros Htrain. unfold __getitem__. rewrite Htrain. clear Htrain.
  revert s idx. induction fuel as [|fuel IH]; intros s idx; [done|].
  simpl. destruct (prepare_img s idx) as [[o|e] s1] eqn:Hprep; [|done].
  apply prepare_img_ok in Hprep as [Hdraws Hruns].
  assert (Hstop : o <> PyNone -> Some (Ok o, s1) = Some (Ok data, s') ->
                  data <> PyNone /\
                  exists used, draws s = used ++ draws s' /\
                    length (runs s') = (length (runs s) + length used + 1)%nat).
  { intros Hne [= <- <-]. split; [done|]. exists []. simpl. split; [done | lia]. }
  destruct o; try by apply Hstop.
  unfold _rand_another. destruct (__len__ (dataset s1)) as [n|e]; [|done].
  destruct (n <=? 0); [done|].
  destruct (draws s1) as [|d rest] eqn:Hd; [done|].
  intros Hretry. apply IH in Hretry as (Hne & used & Hused & Hlen).
  split; [done|]. simpl in *. exists (d :: used). simpl.
  split; [congruence | lia].
Qed.

(** X24. In training mode, when the pipeline accepts the record asked for,
    the retrieval returns its sample at once: one pipeline run, no draw. *)
Theorem getitem_training_first_try
    (fuel : nat) (s : Store) (idx : Z) (infos : list DataInfo)
    (d : DataInfo) (data : pyobj) :
  test_mode (dataset s) = false ->
  data_infos (dataset s) = Some infos ->
  0 <= idx < Z.of_nat (length infos) ->
  infos !! Z.to_nat idx = Some d ->
  (pipeline (dataset s) (pre_pipeline (dataset s) d)).2 = Ok data ->
  data <> PyNone ->
  exists s',
    __getitem__ (S fuel) s idx = Some (Ok data, s') /\
    draws s' = draws s /\
    runs s' = runs s ++ [(Z.to_nat idx, pre_pipeline (dataset s) d)].
Proof.
  intros Htrain Hinfos Hidx Hd Hdata Hne.
  unfold __getitem__. rewrite Htrain. simpl.
  rewrite (prepare_img_in_range s idx infos d Hinfos Hidx Hd), Hdata.
  destruct data; [done | ..]; by eexists.
Qed.

(** X25. An error raised by the pipeline is not retried: in either mode
    the retrieval raises it after that one run, without taking a draw. *)
Theorem getitem_pipeline_error_propagates
    (fuel : nat) (s : Store) (idx : Z) (infos : list DataInfo)
    (d : DataInfo) (e : exn) :
  data_infos (dataset s) = Some infos ->
  0 <= idx < Z.of_nat (length infos) ->
  infos !! Z.to_nat idx = Some d ->
  (pipeline (dataset s) (pre_pipeline (dataset s) d)).2 = Raise e ->
  exists s',
    __getitem__ (S fuel) s idx = Some (Raise e, s') /\
    draws s' = draws s /\
    runs s' = runs s ++ [(Z.to_nat idx, pre_pipeline (dataset s) d)].
Proof.
  intros Hinfos Hidx Hd Hraise.
  unfold __getitem__. simpl.
  rewrite (prepare_img_in_range s idx infos d Hinfos Hidx Hd), Hraise.
  destruct (test_mode (dataset s)); by eexists.
Qed.

(** The loop on a dataset all of whose records the pipeline rejects. *)
Lemma retry_all_invalid self (Invalid : DataInfo -> Prop) :
  (forall r, Invalid r ->
     (pipeline self (pre_pipeline self r)).2 = Ok PyNone /\
     Invalid (pipeline self (pre_pipeline self r)).1) ->
  forall fuel infos ds rs idx,
    Forall Invalid infos ->
    0 <= idx < Z.of_nat (length infos) ->
    Forall (fun d => 0 <= d < Z.of_nat (length infos)) ds ->
    retry fuel {| dataset := set_data_infos self (Some infos);
                  draws := ds; runs := rs |} idx = None.
Proof.
  intros Hstays. induction fuel as [|fuel IH];
    intros infos ds rs idx Hall Hidx Hds; [done|].
  destruct (lookup_lt_is_Some_2 infos (Z.to_nat idx)) as [r Hr]; [lia|].
  assert (Hinv : Invalid r)
    by (eapply Forall_forall; [exact Hall | by eapply list_elem_of_lookup_2]).
  destruct (Hstays r Hinv) as [Hnone Hinv'].
  cbn [retry]. rewrite (prepare_img_at self infos ds rs idx r Hidx Hr), Hnone.
  unfold _rand_another, __len__.
  cbn [dataset data_infos set_data_infos draws]. rewrite length_insert.
  destruct (Z.leb_spec (Z.of_nat (length infos)) 0) as [|_]; [lia|].
  destruct ds as [|d rest]; [done|].
  apply Forall_cons in Hds as [Hd Hrest]. apply IH.
  - by apply Forall_insert.
  - by rewrite length_insert.
  - by rewrite length_insert.
Qed.

(** X26. The retry loop has no way out of a dataset all of whose records
    the pipeline rejects: in training mode, whatever indices are drawn and
    however many rounds are allowed, the retrieval has not returned. *)
Theorem getitem_all_invalid_never_returns
    (s : Store) (infos : list DataInfo) (Invalid : DataInfo -> Prop)
    (idx : Z) (fuel : nat) :
  test_mode (dataset s) = false ->
  data_infos (dataset s) = Some infos ->
  Forall Invalid infos ->
  (forall r, Invalid r ->
     (pipeline (dataset s) (pre_pipeline (dataset s) r)).2 = Ok PyNone /\
     Invalid (pipeline (dataset s) (pre_pipeline (dataset s) r)).1) ->
  0 <= idx < Z.of_nat (length infos) ->
  Forall (fun d => 0 <= d < Z.of_nat (length infos)) (draws s) ->
  __getitem__ fuel s idx = None.
Proof.
  intros Htrain Hinfos Hall Hstays Hidx Hds.
  unfold __getitem__. rewrite Htrain.
  rewrite <- (store_eta s), <- (set_data_infos_id (dataset s) infos Hinfos).
  by apply (retry_all_invalid (dataset s) Invalid Hstays).
Qed.

(** X27. With a pipeline that writes nothing to the record, retrieving
    the same index again in test mode returns the same result and leaves
    the records as the first retrieval left them: the two assignments of
    [pre_pipeline] are repeated with the same values. *)
Theorem getitem_test_mode_repeatable
    (fuel : nat) (s : Store) (idx : Z) (infos : list DataInfo) :
  test_mode (dataset s) = true ->
  data_infos (dataset s) = Some infos ->
  0 <= idx < Z.of_nat (length infos) ->
  (forall r, (pipeline (dataset s) r).1 = r) ->
  exists out s1 s2,
    __getitem__ fuel s idx = Some (out, s1) /\
    __getitem__ fuel s1 idx = Some (out, s2) /\
    dataset s2 = dataset s1.
Proof.
  intros Htest Hinfos Hidx Hpure.
  destruct (lookup_lt_is_Some_2 infos (Z.to_nat idx)) as [d Hd]; [lia|].
  unfold __getitem__. rewrite Htest.
  rewrite (prepare_img_in_range s idx infos d Hinfos Hidx Hd).
  eexists _, _, _. split; [reflexivity|].
  cbn [dataset test_mode set_data_infos]. rewrite Htest.
  rewrite Hpure.
  rewrite (prepare_img_at (dataset s) _ _ _ idx (pre_pipeline (dataset s) d)).
  - change (pre_pipeline (dataset s) (pre_pipeline (dataset s) d))
      with (pre_pipeline (dataset s) d).
    rewrite Hpure, list_insert_insert_eq. split; reflexivity.
  - by rewrite length_insert.
  - apply list_lookup_insert_eq. lia.
Qed.

(** *** The statements at work *)

Lemma init_test_mode_keeps_all_witness :
  exists self,
    __init__ coco_like no_files "ann.json" pipeline_ex ClassesNone None
      (Some "val2017/") true true = (Ok self, []) /\
    data_infos self = load_annotations coco_like (ann_file self) /\
    CLASSES self = NamesTuple ["person"; "car"].
Proof.
  apply (init_test_mode_keeps_all coco_like no_files "ann.json" pipeline_ex
           ClassesNone None (Some "val2017/") true).
  reflexivity.
Defined.

Lemma base_class_test_mode_unusable_witness :
  exists self,
    __init__ base_class no_files "ann.json" pipeline_ex
      (ClassesList ["person"]) None None true false = (Ok self, []) /\
    __len__ self = Raise no_len /\
    forall fuel ds rs idx,
      __getitem__ fuel {| dataset := self; draws := ds; runs := rs |} idx
      = Some (Raise not_subscriptable,
              {| dataset := self; draws := ds; runs := rs |}).
Proof.
  apply (base_class_test_mode_unusable no_files "ann.json" pipeline_ex
           (ClassesList ["person"]) None None false (NamesList ["person"])).
  reflexivity.
Defined.

Lemma init_keeps_absolute_paths_witness :
  exists self,
    __init__ coco_like no_files "/abs/ann.json" pipeline_ex ClassesNone
      (Some "/data") None true false = (Ok self, []) /\
    ann_file self = "/abs/ann.json" /\
    img_prefix self = None.
Proof.
  eexists. split; [reflexivity|].
  destruct (init_keeps_absolute_paths coco_like no_files "/abs/ann.json"
              pipeline_ex ClassesNone (Some "/data") None true false _ []
              eq_refl) as [Hann Hprefix].
  split; [apply Hann; right; reflexivity | apply Hprefix; right; left; reflexivity].
Defined.

Lemma init_absolute_root_gives_absolute_paths_witness :
  exists self,
    __init__ coco_like no_files "ann.json" pipeline_ex ClassesNone
      (Some "/data") (Some "val2017/") true false = (Ok self, []) /\
    isabs (ann_file self) = true /\
    (forall p, img_prefix self = Some p -> isabs p = true) /\
    (img_prefix self = None <-> Some "val2017/" = None).
Proof.
  eexists. split; [reflexivity|].
  apply (init_absolute_root_gives_absolute_paths coco_like no_files "ann.json"
           pipeline_ex ClassesNone "/data" (Some "val2017/") true false _ []).
  - reflexivity.
  - reflexivity.
Defined.

Lemma filter_imgs_indices_witness :
  exists valid_inds,
    (_filter_imgs (dataset_ex false) 600).1 = Ok valid_inds /\
    StronglySorted Z.lt valid_inds /\
    forall i, i ∈ valid_inds
              <-> 0 <= i < Z.of_nat (length infos_ex)
                  /\ large_at 600 infos_ex (Z.to_nat i).
Proof.
  apply (filter_imgs_indices (dataset_ex false) 600 infos_ex).
  reflexivity.
Defined.

Lemma filter_empty_gt_only_warns_witness :
  [empty_gt_warning] = [empty_gt_warning] /\
  exists self',
    __init__ coco_like no_files "ann.json" pipeline_ex ClassesNone None
      (Some "val2017/") false false = (Ok self', []) /\
    data_infos self' = data_infos built.
Proof.
  apply (filter_empty_gt_only_warns coco_like no_files "ann.json" pipeline_ex
           ClassesNone None (Some "val2017/") built [empty_gt_warning]).
  vm_compute. reflexivity.
Defined.

Lemma init_succeeds_on_loaded_list_witness :
  exists self warned n loaded,
    __init__ coco_like no_files "ann.json" pipeline_ex ClassesNone None
      (Some "val2017/") false true = (Ok self, warned) /\
    load_annotations coco_like (ann_file self) = Some loaded /\
    __len__ self = Ok n /\
    0 <= n <= Z.of_nat (length loaded).
Proof.
  apply (init_succeeds_on_loaded_list coco_like no_files "ann.json"
           pipeline_ex ClassesNone None (Some "val2017/") false true
           (NamesTuple ["person"; "car"])).
  - reflexivity.
  - intros path. simpl. by eexists.
Defined.

Lemma global_metas_expose_resolved_classes_witness :
  exists c,
    get_classes coco_like no_files ClassesNone = Ok c /\
    get_global_metas built = [("class", c)].
Proof.
  apply (global_metas_expose_resolved_classes coco_like no_files "ann.json"
           pipeline_ex ClassesNone None (Some "val2017/") false true built
           [empty_gt_warning]).
  vm_compute. reflexivity.
Defined.

Lemma getitem_negative_index_witness :
  exists s',
    __getitem__ 0 test_store (-1) = Some (Ok (PyObject "b.jpg" true None), s') /\
    (fst <$> runs s') = [2%nat].
Proof.
  destruct (getitem_negative_index 0 test_store (-1) infos_ex)
    as (d & Hd & Hget).
  - reflexivity.
  - reflexivity.
  - simpl. lia.
  - injection Hd as <-. eexists. split; [exact Hget|]. reflexivity.
Defined.

Lemma getitem_out_of_range_witness :
  __getitem__ 1 train_store 3 = Some (Raise IndexError, train_store).
Proof.
  apply (getitem_out_of_range 0 train_store 3 infos_ex).
  - reflexivity.
  - right. simpl. lia.
Defined.

Lemma getitem_training_returns_a_sample_witness :
  exists data s',
    __getitem__ 4 train_store 0 = Some (Ok data, s') /\
    data <> PyNone /\
    exists used,
      draws train_store = used ++ draws s' /\
      length (runs s') = (length (runs train_store) + length used + 1)%nat.
Proof.
  eexists _, _. split; [reflexivity|].
  apply (getitem_training_returns_a_sample 4 train_store 0).
  - reflexivity.
  - reflexivity.
Defined.

Lemma getitem_training_first_try_witness :
  exists s',
    __getitem__ 1 train_store 1
    = Some (Ok (PyObject "a.jpg" true None), s') /\
    draws s' = draws train_store /\
    runs s' = [(1%nat, pre_pipeline (dataset_ex false) (record 640 480 "a.jpg"))].
Proof.
  apply (getitem_training_first_try 0 train_store 1 infos_ex
           (record 640 480 "a.jpg") (PyObject "a.jpg" true None)).
  - reflexivity.
  - reflexivity.
  - simpl. lia.
  - reflexivity.
  - reflexivity.
  - discriminate.
Defined.

Lemma getitem_pipeline_error_propagates_witness :
  exists s',
    __getitem__ 1 unreadable_store 0
    = Some (Raise (UserError "FileNotFoundError"), s') /\
    draws s' = [1; 2] /\
    runs s' = [(0%nat, pre_pipeline (dataset unreadable_store)
                         (record 640 480 "empty.jpg"))].
Proof.
  apply (getitem_pipeline_error_propagates 0 unreadable_store 0 infos_ex
           (record 640 480 "empty.jpg") (UserError "FileNotFoundError")).
  - reflexivity.
  - simpl. lia.
  - reflexivity.
  - reflexivity.
Defined.

Lemma getitem_all_invalid_never_returns_witness :
  __getitem__ 100 spinning_store 0 = None.
Proof.
  apply (getitem_all_invalid_never_returns spinning_store all_empty
           (fun r => filename (img_info r) = "empty.jpg") 0 100).
  - reflexivity.
  - reflexivity.
  - repeat constructor.
  - intros r Hr. simpl. unfold pipeline_ex. simpl. rewrite Hr.
    split; reflexivity.
  - simpl. lia.
  - simpl. repeat constructor; lia.
Defined.

Lemma getitem_test_mode_repeatable_witness :
  exists out s1 s2,
    __getitem__ 0 test_store 1 = Some (out, s1) /\
    __getitem__ 0 s1 1 = Some (out, s2) /\
    dataset s2 = dataset s1.
Proof.
  apply (getitem_test_mode_repeatable 0 test_store 1 infos_ex).
  - reflexivity.
  - reflexivity.
  - simpl. lia.
  - intros r. reflexivity.
Defined.

End CustomDatasetMore.
